(** * histdatacom: command-line gate and pipeline orchestrator

    A shallow embedding of [src/histdatacom/cli.py] (class [ArgParser]) and
    [src/histdatacom/histdata_com.py] (class [_HistDataCom]).

    Python code is embedded as functions in a small state-and-exception
    monad: the state carries [sys.argv], the module global [config.args],
    the contents of the shared record queues and the log of observable
    events; a computation ends by returning, by raising an exception or by
    [sys.exit]. *)

From stdpp Require Import base strings gmap list.
From Stdlib Require Import ZArith Ascii String.

Open Scope string_scope.
Open Scope Z_scope.

(** ** Python values and outcomes *)

(** The values that live in the argument namespace and in [config.args]:
    [None], booleans (the [store_true] flags), strings, lists of strings
    (what argparse builds for [nargs='+']) and sets of strings. *)
Inductive pyval :=
| VNone
| VBool (b : bool)
| VStr (s : string)
| VList (l : list string)
| VSet (s : gset string).

(** [bool(v)] *)
Definition truthy (v : pyval) : bool :=
  match v with
  | VNone => false
  | VBool b => b
  | VStr s => negb (String.eqb s "")
  | VList l => negb (Nat.eqb (List.length l) 0)
  | VSet s => negb (bool_decide (s = ∅))
  end.

(** [v == 1]: among these values only [True] equals the integer one. *)
Definition eq_one (v : pyval) : bool :=
  match v with
  | VBool b => b
  | _ => false
  end.

(** [isinstance(v, list)] *)
Definition isinstance_list (v : pyval) : bool :=
  match v with
  | VList _ => true
  | _ => false
  end.

(** A year-month attribute holds [None] or a string. *)
Abbreviation yearmonth := (option string).

Definition ym_truthy (v : yearmonth) : bool :=
  match v with
  | None => false
  | Some s => negb (String.eqb s "")
  end.

(** [v == s] for a string literal [s] *)
Definition ym_eq (v : yearmonth) (s : string) : bool :=
  match v with
  | None => false
  | Some t => String.eqb t s
  end.

(** [f"{v}"] *)
Definition ym_format (v : yearmonth) : string :=
  match v with
  | None => "None"
  | Some s => s
  end.

Definition str_truthy (s : string) : bool := negb (String.eqb s "").

Inductive exn :=
| ValueError (msg : string)
| TypeError (msg : string)
| KeyError (key : string)
| AttributeError (name : string)
| UnboundLocalError (var : string).

(** [isinstance(e, NameError)]: [UnboundLocalError] is a subclass of
    [NameError]. *)
Definition is_NameError (e : exn) : bool :=
  match e with
  | UnboundLocalError _ => true
  | _ => false
  end.

(** [str(e)] *)
Definition exn_str (e : exn) : string :=
  match e with
  | ValueError m => m
  | TypeError m => m
  | KeyError k => "'" ++ k ++ "'"
  | AttributeError n => n
  | UnboundLocalError v => v
  end.

(** The argument of [sys.exit]. *)
Inductive exit_arg :=
| ExitNone
| ExitInt (n : Z)
| ExitObject (e : exn).

(** The status handed to the operating system: [None] is success, an
    integer is itself, any other object is printed and the status is 1. *)
Definition exit_status (a : exit_arg) : Z :=
  match a with
  | ExitNone => 0
  | ExitInt n => n
  | ExitObject _ => 1
  end.

Inductive outcome (A : Type) :=
| Ret (a : A)
| Raise (e : exn)
| SystemExit (a : exit_arg).
Arguments Ret {A} a.
Arguments Raise {A} e.
Arguments SystemExit {A} a.

(** Status of the interpreter when a computation is its whole program: an
    uncaught exception prints a traceback and yields 1. *)
Definition process_status {A} (o : outcome A) : Z :=
  match o with
  | Ret _ => 0
  | Raise _ => 1
  | SystemExit a => exit_status a
  end.

(** ** Strings: the builtins the validation layer uses

    Strings are ASCII; a character above 127 is neither a digit nor
    white space here. *)

Definition code (c : ascii) : nat := nat_of_ascii c.

Definition is_digit (c : ascii) : bool :=
  (Nat.leb 48 (code c)) && (Nat.leb (code c) 57).

Definition digit_value (c : ascii) : Z := Z.of_nat (code c - 48).

(** The white space [int] skips around the literal of an ASCII string:
    TAB..CR and the space. *)
Definition is_space (c : ascii) : bool :=
  ((Nat.leb 9 (code c)) && (Nat.leb (code c) 13)) || Nat.eqb (code c) 32.

Fixpoint drop_spaces (l : list ascii) : list ascii :=
  match l with
  | c :: r => if is_space c then drop_spaces r else l
  | [] => []
  end.

Definition strip (l : list ascii) : list ascii :=
  rev (drop_spaces (rev (drop_spaces l))).

(** Decimal digits with single underscores allowed between digits.
    [prev] tells whether the previous character was a digit. *)
Fixpoint digits_value (acc : Z) (prev : bool) (l : list ascii) : option Z :=
  match l with
  | [] => if prev then Some acc else None
  | c :: r =>
      if is_digit c then digits_value (10 * acc + digit_value c) true r
      else if Ascii.eqb c "_"%char && prev then digits_value acc false r
      else None
  end.

(** [repr(s)] for a string of printable characters other than the quote
    and the backslash. *)
Definition repr (s : string) : string := "'" ++ s ++ "'".

(** [int(s)] for a string [s], base 10: surrounding white space, an
    optional sign, digits; [ValueError] otherwise. *)
Definition py_int (s : string) : outcome Z :=
  let bad := Raise (ValueError ("invalid literal for int() with base 10: " ++ repr s)) in
  match strip (list_ascii_of_string s) with
  | c :: r =>
      if Ascii.eqb c "-"%char then
        match digits_value 0 false r with Some n => Ret (- n) | None => bad end
      else if Ascii.eqb c "+"%char then
        match digits_value 0 false r with Some n => Ret n | None => bad end
      else
        match digits_value 0 false (c :: r) with Some n => Ret n | None => bad end
  | [] => bad
  end.

(** [str.lower] *)
Definition lower_char (c : ascii) : ascii :=
  if (Nat.leb 65 (code c)) && (Nat.leb (code c) 90)
  then ascii_of_nat (code c + 32) else c.

Definition lower (s : string) : string :=
  string_of_list_ascii (map lower_char (list_ascii_of_string s)).

(** The character class [[-_.: ]] *)
Definition is_date_punct (c : ascii) : bool :=
  Ascii.eqb c "-"%char || Ascii.eqb c "_"%char || Ascii.eqb c "."%char
  || Ascii.eqb c ":"%char || Ascii.eqb c " "%char.

Definition newline : ascii := ascii_of_nat 10.

(** [$] matches at the end of the string and also just before a final
    newline: matching [^...$] is matching the whole string with one
    trailing newline removed. *)
Definition before_dollar (l : list ascii) : list ascii :=
  match rev l with
  | c :: r => if Ascii.eqb c newline then rev r else l
  | [] => l
  end.

(** [re.match("^\d{4}[-_.: ]\d{2}$", s)] *)
Definition match_year_punct_month (s : string) : bool :=
  match before_dollar (list_ascii_of_string s) with
  | [y1; y2; y3; y4; p; m1; m2] =>
      is_digit y1 && is_digit y2 && is_digit y3 && is_digit y4
      && is_date_punct p && is_digit m1 && is_digit m2
  | _ => false
  end.

(** [re.match("^\d{6}$", s)] *)
Definition match_six_digits (s : string) : bool :=
  match before_dollar (list_ascii_of_string s) with
  | [d1; d2; d3; d4; d5; d6] =>
      is_digit d1 && is_digit d2 && is_digit d3 && is_digit d4
      && is_digit d5 && is_digit d6
  | _ => false
  end.

(** [re.match("^\d{4}$", s)] *)
Definition match_four_digits (s : string) : bool :=
  match before_dollar (list_ascii_of_string s) with
  | [d1; d2; d3; d4] =>
      is_digit d1 && is_digit d2 && is_digit d3 && is_digit d4
  | _ => false
  end.

(** Text of a triple-quoted literal, one list element per line; the
    indentation of the source layout is not kept. *)
Definition text (ls : list string) : string :=
  String.concat (String newline "") ls.

(** ** Observable events and the program state *)

(** Shared objects (the record queues built by the queue manager) are
    known to the orchestrator by reference only. *)
Definition ref := nat.

Inductive component_class := URLs | CSVs | API | Influx.

Inductive operation :=
| Op_populate_initial_queue
| Op_validate_urls
| Op_download_zips
| Op_validate_jays
| Op_merge_jays
| Op_extract_csvs
| Op_import_data.

(** [Print] is [print] on [sys.stdout] and [PrintHelp] is
    [print_help(sys.stderr)]; [Stderr] and [Traceback] are what the
    interpreter writes on [sys.stderr] when the program ends. *)
Inductive event :=
| Print (line : string)
| PrintHelp
| Stderr (line : string)
| Traceback (e : exn)
| ReadInfluxYaml
| New (c : component_class) (args : list ref)
| Call (c : component_class) (op : operation) (args : list ref)
| SummaryReport (counts : list (string * nat)) (failed : list (string * string)).

(** [SummaryReport] is the report of the specification (counts by terminal
    status, failed identities with reasons); the embedded functions have
    no statement that emits it. *)
Definition is_summary (e : event) : bool :=
  match e with
  | SummaryReport _ _ => true
  | _ => false
  end.

Definition is_call (e : event) : bool :=
  match e with
  | Call _ _ _ => true
  | _ => false
  end.

(** What the interpreter itself writes on [sys.stderr] when a computation
    that is its whole program ends: the traceback of an uncaught
    exception, and [str] of the argument of [sys.exit] when that is
    neither [None] nor an integer. *)
Definition interpreter_writes {A} (o : outcome A) : list event :=
  match o with
  | Ret _ => []
  | Raise e => [Traceback e]
  | SystemExit (ExitObject e) => [Stderr (exn_str e)]
  | SystemExit _ => []
  end.

Record world (Store : Type) := World {
  sys_argv : list string;
  config_args : gmap string pyval;
  store : Store;
  events : list event
}.
Arguments World {Store}.
Arguments sys_argv {Store}.
Arguments config_args {Store}.
Arguments store {Store}.
Arguments events {Store}.

Definition M (Store A : Type) : Type := world Store -> outcome A * world Store.

Section Monad.
Context {Store : Type}.

Definition ret {A} (a : A) : M Store A := fun w => (Ret a, w).

Definition bind {A B} (m : M Store A) (k : A -> M Store B) : M Store B :=
  fun w =>
    match m w with
    | (Ret a, w') => k a w'
    | (Raise e, w') => (Raise e, w')
    | (SystemExit x, w') => (SystemExit x, w')
    end.

Definition raise {A} (e : exn) : M Store A := fun w => (Raise e, w).

(** [sys.exit(a)] raises [SystemExit], which no [except ValueError]
    clause catches. *)
Definition sys_exit {A} (a : exit_arg) : M Store A := fun w => (SystemExit a, w).

Definition lift {A} (o : outcome A) : M Store A := fun w => (o, w).

Definition emit (e : event) : M Store unit :=
  fun w => (Ret tt, World (sys_argv w) (config_args w) (store w) (events w ++ [e])).

(** [try: body except ValueError as err: handler(err)] *)
Definition try_except_ValueError {A} (body : M Store A) (handler : exn -> M Store A)
  : M Store A :=
  fun w =>
    match body w with
    | (Raise (ValueError m), w') => handler (ValueError m) w'
    | r => r
    end.

(** Reading a local variable: a name that no executed statement has bound
    raises [UnboundLocalError]. *)
Definition read_local {A} (name : string) (slot : option A) : M Store A :=
  match slot with
  | Some v => ret v
  | None => raise (UnboundLocalError name)
  end.

End Monad.

Notation "x <- m ;; k" := (bind m (fun x => k))
  (at level 100, m at next level, right associativity).
Notation "m ;;; k" := (bind m (fun _ => k))
  (at level 100, right associativity).

(** ** cli.py: the argument namespace *)

(** [ArgsNamespace]: the attributes argparse reads and writes. *)
Record ArgsNamespace := {
  validate_urls : bool;
  download_data_archives : bool;
  extract_csvs : bool;
  clean_data : bool;
  import_to_influxdb : bool;
  pairs : pyval;
  platforms : pyval;
  timeframes : pyval;
  start_yearmonth : yearmonth;
  end_yearmonth : yearmonth;
  data_directory : string
}.

(** [ns.start_yearmonth, ns.end_yearmonth = p] *)
Definition set_yearmonths (ns : ArgsNamespace) (p : yearmonth * yearmonth)
  : ArgsNamespace :=
  {| validate_urls := validate_urls ns;
     download_data_archives := download_data_archives ns;
     extract_csvs := extract_csvs ns;
     clean_data := clean_data ns;
     import_to_influxdb := import_to_influxdb ns;
     pairs := pairs ns;
     platforms := platforms ns;
     timeframes := timeframes ns;
     start_yearmonth := fst p;
     end_yearmonth := snd p;
     data_directory := data_directory ns |}.

Definition ym_val (v : yearmonth) : pyval :=
  match v with
  | None => VNone
  | Some s => VStr s
  end.

(** [vars(ns)]: the attribute dictionary of the namespace. *)
Definition vars (ns : ArgsNamespace) : gmap string pyval :=
  list_to_map
    [ ("validate_urls", VBool (validate_urls ns));
      ("download_data_archives", VBool (download_data_archives ns));
      ("extract_csvs", VBool (extract_csvs ns));
      ("clean_data", VBool (clean_data ns));
      ("import_to_influxdb", VBool (import_to_influxdb ns));
      ("pairs", pairs ns);
      ("platforms", platforms ns);
      ("timeframes", timeframes ns);
      ("start_yearmonth", ym_val (start_yearmonth ns));
      ("end_yearmonth", ym_val (end_yearmonth ns));
      ("data_directory", VStr (data_directory ns)) ].

(** The two options whose [type=] callback is
    [validate_yearmonth_format]: [-s] and [-e]. *)
Inductive yearmonth_option := Opt_start | Opt_end.

(** What the two files import from modules that are not embedded here
    ([histdatacom.utils], [histdatacom.fx_enums]) and from the standard
    library ([argparse]).  They are parameters of the development.
    - the date helpers are read as functions from a year-month attribute to
      a string, and the current year-month as a fixed string for one run;
    - [parse_args argv ns] is argparse at work on the command line with the
      default namespace [ns].  While it works argparse hands strings to the
      [type=] callback of [-s] and [-e]: each value as it meets it on the
      command line and, when the command line is used up, the string
      default of an option that was not given.  The first component lists
      these strings in that order, as far as argparse gets by itself; the
      second is how argparse's own work ends: with the namespace (whose two
      year-month attributes are those the callback results are stored in),
      or with an exception or [sys.exit] of its own (usage error,
      [--help]);
    - [load_influx_yaml] is the parsed credential file, or the exception
      that reading it raises. *)
Class Helpers := {
  get_year_from_datemonth : yearmonth -> string;
  get_month_from_datemonth : yearmonth -> string;
  get_current_datemonth_gmt_plus5 : string;
  Pairs_list_keys : pyval;
  Platform_list_values : pyval;
  Timeframe_list_keys : pyval;
  parse_args : list string -> ArgsNamespace
               -> list (yearmonth_option * string) * outcome ArgsNamespace;
  set_working_data_dir : pyval -> pyval;
  load_influx_yaml : outcome (gmap string (gmap string pyval))
}.

(** [ArgsNamespace.__init__]: the defaults. *)
Definition ArgsNamespace_init {helpers : Helpers} : ArgsNamespace :=
  {| validate_urls := true;
     download_data_archives := false;
     extract_csvs := false;
     clean_data := false;
     import_to_influxdb := false;
     pairs := Pairs_list_keys;
     platforms := Platform_list_values;
     timeframes := Timeframe_list_keys;
     start_yearmonth := Some "";
     end_yearmonth := Some "";
     data_directory := "data" |}.

(** ** cli.py: error texts *)

Definition err_text_end_yearmonth_cannot_be_start : string :=
  text [ ""; "ERROR on -e start           ERROR";
         "* keyword 'start' cannot be used as -e start"; "" ].

Definition err_text_start_must_have_end : string :=
  text [ ""; "ERROR on -s start           ERROR";
         "* keyword 'start' must also specify"; "an end year-month"; "" ].

Definition err_text_start_month (start_yearmonth : yearmonth) : string :=
  text [ ""; "ERROR on -e " ++ ym_format start_yearmonth ++ "   ERROR";
         "start month cannot be zero."; "* valid inputs:"; "a) just the year";
         "eg. -s 2022"; "b) months 1-12:"; "eg. -s 2022-04"; "" ].

Definition err_text_no_end_yearmonth (start_year : string) (end_yearmonth : yearmonth)
  : string :=
  text [ ""; "ERROR on -e " ++ start_year ++ "  " ++ ym_format end_yearmonth ++ "  ERROR";
         "* Malformed command:"; "- cannot include `-e end_year-month` when";
         "specifying a single year with -s " ++ start_year; "" ].

Definition err_text_no_start_yearmonth (end_yearmonth : yearmonth) : string :=
  text [ ""; "ERROR on -e " ++ ym_format end_yearmonth ++ "  ERROR";
         "* Malformed command:"; "- cannot include `-e end_year-month` without";
         "specifying a start year-month. "; "eg. -s year-month -e year-month"; "" ].

Definition err_text_start_month_greater_than_12 (start_yearmonth : yearmonth) : string :=
  text [ ""; "ERROR on -s " ++ ym_format start_yearmonth ++ "  ERROR";
         "* Malformed command:"; "- start month is greater than 12.";
         "valid input is 01-12."; "" ].

Definition err_text_no_endmonth (end_yearmonth : yearmonth) : string :=
  text [ ""; "ERROR on -e " ++ ym_format end_yearmonth ++ "           ERROR";
         "* You left out the end month."; "- valid input is -e year-month(1-12)";
         "eg. -e 2022-03"; ""; "" ].

Definition err_text_endmonth_cannot_be_zero (end_yearmonth : yearmonth) : string :=
  text [ ""; "ERROR on -e " ++ ym_format end_yearmonth ++ "           ERROR";
         "* End month cannot be zero."; "- valid input is -e year-month(1-12)";
         "eg. -e 2022-03"; ""; "" ].

Definition err_text_end_month_greater_than_12 (end_yearmonth : yearmonth) : string :=
  text [ ""; "ERROR on -e " ++ ym_format end_yearmonth ++ "  ERROR";
         "* Malformed command:"; "- end month is greater than 12.";
         "valid input is 01-12."; "" ].

Definition err_text_start_and_end_cannot_be_the_same
  (start_yearmonth end_yearmonth : yearmonth) : string :=
  text [ ""; "ERROR on -s " ++ ym_format start_yearmonth ++ " -e "
               ++ ym_format end_yearmonth ++ "  ERROR";
         "* start year-month and end year-month cannot be the same."; "" ].

(** The two range checks carry the same two texts, with [-s] and six
    spaces in one and [-e] and five spaces in the other. *)
Definition err_text_date_prior_to_dataset (flag gap : string) (v : yearmonth) : string :=
  text [ ""; "ERROR on " ++ flag ++ " " ++ ym_format v ++ gap ++ "ERROR";
         "* bad year-month "; "- no data available for dates"; "prior to 2000y"; "" ].

Definition err_text_date_is_in_future (flag gap : string) (v : yearmonth) : string :=
  text [ ""; "ERROR on " ++ flag ++ " " ++ ym_format v ++ gap ++ "ERROR";
         "* year-month cannot be in the future."; "" ].

Definition err_text_start_date_after_end_date
  (start_yearmonth end_yearmonth : yearmonth) : string :=
  text [ ""; "ERROR on -s " ++ ym_format start_yearmonth ++ " -e "
               ++ ym_format end_yearmonth ++ "    ERROR";
         "* logic error: end year-month is before start year-month."; "" ].

Definition err_text_bad_yearmonth_format (yearmonth : string) : string :=
  text [ ""; "ERROR on " ++ yearmonth ++ "    ERROR";
         "* invalid yearmonth format"; "" ].

(** ** cli.py: the checks of [ArgParser] *)

Section Cli.
Context {Store : Type} {helpers : Helpers}.

(** [exit_on_datetime_error]: [print(err)] then [sys.exit(err)]. *)
Definition exit_on_datetime_error {A} (err : exn) : M Store A :=
  emit (Print (exn_str err)) ;;;
  sys_exit (ExitObject err).

(** [replace_date_punct] *)
Definition replace_date_punct (datemonth_str : yearmonth) : string :=
  match datemonth_str with
  | Some s =>
      string_of_list_ascii
        (filter (fun c => negb (is_date_punct c)) (list_ascii_of_string s))
  | None => ""
  end.

(** [validate_yearmonth_format], the [type=] callback of [-s] and [-e]. *)
Definition validate_yearmonth_format (yearmonth : string) : M Store string :=
  try_except_ValueError
    (if match_year_punct_month yearmonth
        || match_six_digits yearmonth
        || match_four_digits yearmonth
        || String.eqb (lower yearmonth) "now"
        || String.eqb (lower yearmonth) "start"
        || String.eqb yearmonth ""
     then ret (replace_date_punct (Some yearmonth))
     else raise (ValueError (err_text_bad_yearmonth_format yearmonth)))
    exit_on_datetime_error.

(** [check_for_start_in_yearmonth] *)
Definition check_for_start_in_yearmonth (args_namespace : ArgsNamespace)
  : M Store (yearmonth * yearmonth) :=
  try_except_ValueError
    (let start_yearmonth := start_yearmonth args_namespace in
     if ym_truthy start_yearmonth && ym_eq start_yearmonth "start" then
       let end_yearmonth := end_yearmonth args_namespace in
       if ym_truthy end_yearmonth then
         if ym_eq end_yearmonth "start"
         then raise (ValueError err_text_end_yearmonth_cannot_be_start)
         else ret (Some "200001", end_yearmonth)
       else raise (ValueError err_text_start_must_have_end)
     else ret (start_yearmonth, end_yearmonth args_namespace))
    exit_on_datetime_error.

(** [check_for_now_in_yearmonth].  The local [end_yearmonth] is bound only
    by the walrus of the [elif], which runs when [start_yearmonth] is
    truthy and is not ["now"]; the final [return] reads it in every case. *)
Definition check_for_now_in_yearmonth (args_namespace : ArgsNamespace)
  : M Store (yearmonth * yearmonth) :=
  let start_yearmonth := start_yearmonth args_namespace in
  if ym_truthy start_yearmonth then
    if ym_eq start_yearmonth "now"
    then ret (Some get_current_datemonth_gmt_plus5, None)
    else
      let bound := end_yearmonth args_namespace in
      if ym_truthy bound && ym_eq bound "now"
      then ret (start_yearmonth, Some get_current_datemonth_gmt_plus5)
      else
        end_yearmonth <- read_local "end_yearmonth" (Some bound) ;;
        ret (start_yearmonth, end_yearmonth)
  else
    end_yearmonth <- read_local "end_yearmonth" None ;;
    ret (start_yearmonth, end_yearmonth).

(** [check_cli_start_yearmonth] *)
Definition check_cli_start_yearmonth (args_namespace : ArgsNamespace)
  : M Store (yearmonth * yearmonth) :=
  let start_yearmonth := start_yearmonth args_namespace in
  let start_year := get_year_from_datemonth start_yearmonth in
  let start_month := get_month_from_datemonth start_yearmonth in
  let end_yearmonth := end_yearmonth args_namespace in
  try_except_ValueError
    (if negb (str_truthy start_month) then
       if ym_truthy end_yearmonth then
         if negb (str_truthy start_year)
         then raise (ValueError (err_text_no_start_yearmonth end_yearmonth))
         else raise (ValueError (err_text_no_end_yearmonth start_year end_yearmonth))
       else ret (Some (start_year ++ "00"), None)
     else if String.eqb start_month "00"
     then raise (ValueError (err_text_start_month start_yearmonth))
     else
       m <- lift (py_int start_month) ;;
       if 12 <? m
       then raise (ValueError (err_text_start_month_greater_than_12 start_yearmonth))
       else ret (start_yearmonth, end_yearmonth))
    exit_on_datetime_error.

(** [check_cli_end_yearmonth] *)
Definition check_cli_end_yearmonth (args_namespace : ArgsNamespace) : M Store unit :=
  try_except_ValueError
    (let end_yearmonth := end_yearmonth args_namespace in
     if ym_truthy end_yearmonth then
       let end_year := get_year_from_datemonth end_yearmonth in
       let end_month := get_month_from_datemonth end_yearmonth in
       if str_truthy end_year && negb (str_truthy end_month)
       then raise (ValueError (err_text_no_endmonth end_yearmonth))
       else if String.eqb end_month "00"
       then raise (ValueError (err_text_endmonth_cannot_be_zero end_yearmonth))
       else
         m <- lift (py_int end_month) ;;
         if 12 <? m
         then raise (ValueError (err_text_end_month_greater_than_12 end_yearmonth))
         else ret tt
     else ret tt)
    exit_on_datetime_error.

(** [check_for_same_start_yearmonth] *)
Definition check_for_same_start_yearmonth (args_namespace : ArgsNamespace)
  : M Store unit :=
  try_except_ValueError
    (let start_yearmonth := start_yearmonth args_namespace in
     let start_year := get_year_from_datemonth start_yearmonth in
     let start_month := get_month_from_datemonth start_yearmonth in
     let end_yearmonth := end_yearmonth args_namespace in
     let end_year := get_year_from_datemonth end_yearmonth in
     let end_month := get_month_from_datemonth end_yearmonth in
     if String.eqb (start_year ++ "_" ++ start_month) (end_year ++ "_" ++ end_month)
     then raise (ValueError
                   (err_text_start_and_end_cannot_be_the_same start_yearmonth end_yearmonth))
     else ret tt)
    exit_on_datetime_error.

(** [replace_falsey_yearmonth_with_none] *)
Definition replace_falsey_yearmonth_with_none (args_namespace : ArgsNamespace)
  : yearmonth * yearmonth :=
  let start_yearmonth := start_yearmonth args_namespace in
  let end_yearmonth := end_yearmonth args_namespace in
  (if negb (ym_truthy start_yearmonth) || ym_eq start_yearmonth ""
   then None else start_yearmonth,
   if negb (ym_truthy end_yearmonth) || ym_eq end_yearmonth ""
   then None else end_yearmonth).

(** The body shared by the two range checks. *)
Definition check_yearmonth_in_range (flag gap : string) (v : yearmonth) : M Store unit :=
  try_except_ValueError
    (if ym_truthy v then
       n <- lift (py_int (ym_format v)) ;;
       if n <? 200000
       then raise (ValueError (err_text_date_prior_to_dataset flag gap v))
       else
         n' <- lift (py_int (ym_format v)) ;;
         now <- lift (py_int get_current_datemonth_gmt_plus5) ;;
         if now <? n'
         then raise (ValueError (err_text_date_is_in_future flag gap v))
         else ret tt
     else ret tt)
    exit_on_datetime_error.

(** [check_start_yearmonth_in_range] *)
Definition check_start_yearmonth_in_range (args_namespace : ArgsNamespace)
  : M Store unit :=
  check_yearmonth_in_range "-s" "      " (start_yearmonth args_namespace).

(** [check_end_yearmonth_in_range] *)
Definition check_end_yearmonth_in_range (args_namespace : ArgsNamespace)
  : M Store unit :=
  check_yearmonth_in_range "-e" "     " (end_yearmonth args_namespace).

(** [check_start_lessthan_end] *)
Definition check_start_lessthan_end (args_namespace : ArgsNamespace) : M Store unit :=
  try_except_ValueError
    (let start_yearmonth := start_yearmonth args_namespace in
     let end_yearmonth := end_yearmonth args_namespace in
     if ym_truthy start_yearmonth && ym_truthy end_yearmonth then
       s <- lift (py_int (ym_format start_yearmonth)) ;;
       e <- lift (py_int (ym_format end_yearmonth)) ;;
       if e <? s
       then raise (ValueError
                     (err_text_start_date_after_end_date start_yearmonth end_yearmonth))
       else ret tt
     else ret tt)
    exit_on_datetime_error.

(** [check_datetime_input]; the namespace object it mutates is returned. *)
Definition check_datetime_input (args_namespace : ArgsNamespace)
  : M Store ArgsNamespace :=
  ns <- (if ym_truthy (start_yearmonth args_namespace)
            || ym_truthy (end_yearmonth args_namespace)
         then
           p <- check_for_start_in_yearmonth args_namespace ;;
           let ns1 := set_yearmonths args_namespace p in
           p <- check_for_now_in_yearmonth ns1 ;;
           let ns2 := set_yearmonths ns1 p in
           p <- check_cli_start_yearmonth ns2 ;;
           let ns3 := set_yearmonths ns2 p in
           check_cli_end_yearmonth ns3 ;;;
           check_for_same_start_yearmonth ns3 ;;;
           ret ns3
         else ret args_namespace) ;;
  let ns4 := set_yearmonths ns (replace_falsey_yearmonth_with_none ns) in
  check_start_yearmonth_in_range ns4 ;;;
  check_end_yearmonth_in_range ns4 ;;;
  check_start_lessthan_end ns4 ;;;
  ret ns4.

End Cli.

(** ** Calling a Python function: binding arguments to parameters *)

(** The parameter list of a [def] whose parameters have no defaults:
    the named parameters, and whether [*args] and [**kwargs] follow. *)
Record signature := {
  sig_name : string;
  positional : list string;
  var_positional : bool;
  var_keyword : bool
}.

Fixpoint nat_digits (fuel n : nat) (acc : string) : string :=
  match fuel with
  | O => acc
  | S f =>
      let acc' := String (ascii_of_nat (48 + n mod 10)) acc in
      if Nat.eqb (n / 10) 0 then acc' else nat_digits f (n / 10) acc'
  end.

Definition str_of_nat (n : nat) : string := nat_digits (S n) n "".

Definition mem (k : string) (l : list string) : bool :=
  existsb (String.eqb k) l.

(** A call with [npos] positional arguments and the keyword arguments
    [keywords] either binds or raises [TypeError] before the body runs. *)
Definition bind_arguments (f : signature) (npos : nat) (keywords : list string)
  : outcome unit :=
  let n := List.length (positional f) in
  if negb (var_positional f) && Nat.ltb n npos then
    Raise (TypeError
      (sig_name f ++ "() takes " ++ str_of_nat n ++ " positional argument"
       ++ (if Nat.eqb n 1 then "" else "s") ++ " but " ++ str_of_nat npos
       ++ (if Nat.eqb npos 1 then " was given" else " were given")))
  else
    match find (fun k => negb (var_keyword f) && negb (mem k (positional f))) keywords with
    | Some k =>
        Raise (TypeError (sig_name f ++ "() got an unexpected keyword argument " ++ repr k))
    | None =>
        match find (fun k => mem k (take npos (positional f))) keywords with
        | Some k =>
            Raise (TypeError (sig_name f ++ "() got multiple values for argument " ++ repr k))
        | None =>
            match find (fun p => negb (mem p keywords)) (drop npos (positional f)) with
            | Some p =>
                Raise (TypeError
                  (sig_name f ++ "() missing 1 required positional argument: " ++ repr p))
            | None => Ret tt
            end
        end
    end.

(** [def __init__(self, **kwargs)] *)
Definition ArgParser_init_signature : signature :=
  {| sig_name := "ArgParser.__init__";
     positional := ["self"];
     var_positional := false;
     var_keyword := true |}.

(** ** cli.py: [ArgParser] *)

Section ArgParser.
Context {Store : Type} {helpers : Helpers}.

Definition get_argv : M Store (list string) := fun w => (Ret (sys_argv w), w).

(** [setattr(namespace, dest, value)] for the two year-month options *)
Definition store_yearmonth (option : yearmonth_option) (value : string)
  (p : yearmonth * yearmonth) : yearmonth * yearmonth :=
  match option with
  | Opt_start => (Some value, snd p)
  | Opt_end => (fst p, Some value)
  end.

(** argparse applies the [type=] callback of [-s] and [-e] to each string
    in turn and stores the result; a callback that exits ends the parse. *)
Fixpoint convert_yearmonths (met : list (yearmonth_option * string))
  (p : yearmonth * yearmonth) : M Store (yearmonth * yearmonth) :=
  match met with
  | [] => ret p
  | (option, v) :: rest =>
      r <- validate_yearmonth_format v ;;
      convert_yearmonths rest (store_yearmonth option r p)
  end.

(** [self.parse_args(namespace=self.arg_namespace)] *)
Definition ArgParser_parse_args (arg_namespace : ArgsNamespace) : M Store ArgsNamespace :=
  argv <- get_argv ;;
  p <- convert_yearmonths (parse_args argv arg_namespace).1
         (start_yearmonth arg_namespace, end_yearmonth arg_namespace) ;;
  parsed <- lift (parse_args argv arg_namespace).2 ;;
  ret (set_yearmonths parsed p).

(** The body of [ArgParser.__init__].  Building the parser
    ([set_defaults], [add_argument]) has no effect outside the parser; an
    [ArgParser] object is represented by its [arg_namespace]. *)
Definition ArgParser_init_body : M Store ArgsNamespace :=
  let arg_namespace := ArgsNamespace_init in
  argv <- get_argv ;;
  if Nat.eqb (List.length argv) 1 then
    emit PrintHelp ;;;
    sys_exit (ExitInt 1)
  else
    arg_namespace <- ArgParser_parse_args arg_namespace ;;
    check_datetime_input arg_namespace.

(** The expression [ArgParser(a1, ..., an, k1=..., ...)]: the new object
    and the arguments are bound to the parameters of [__init__], then the
    body runs. *)
Definition ArgParser (nargs : nat) (keywords : list string) : M Store ArgsNamespace :=
  lift (bind_arguments ArgParser_init_signature (1 + nargs) keywords) ;;;
  ArgParser_init_body.

(** [ArgParser.__call__] *)
Definition ArgParser_call (self : ArgsNamespace) : ArgsNamespace := self.

End ArgParser.

(** [set(l)] *)
Definition set_of_list (l : list string) : gset string := list_to_set l.

(** One turn of the loop of [_arg_list_to_set]:
    [if isinstance(args[arg], list): args[arg] = set(args[arg])]. *)
Definition arg_list_to_set_step (args : gmap string pyval) (arg : string)
  : gmap string pyval :=
  match args !! arg with
  | Some (VList l) => <[arg := VSet (set_of_list l)]> args
  | _ => args
  end.

(** [ArgParser._arg_list_to_set]: the loop runs over the keys of [args]. *)
Definition _arg_list_to_set (args : gmap string pyval) : gmap string pyval :=
  foldl arg_list_to_set_step args (map_to_list args).*1.

(** ** histdata_com.py: [_HistDataCom] *)

(** A collaborator object ([_URLs], [_CSVs], [_API], [_Influx]) holds the
    references it was built with. *)
Record component := {
  cls : component_class;
  held : list ref
}.

(** The attributes of a [_HistDataCom] object.  [csv_chunks_queue] and
    [influx] are assigned under a condition: [None] is the attribute that
    was never set. *)
Record HistDataCom := {
  records_current : ref;
  records_next : ref;
  urls : component;
  csvs : component;
  api : component;
  csv_chunks_queue : option ref;
  influx : option component
}.

(** The methods of the collaborators that [run] calls.  Their code is not
    embedded: each is a parameter that acts on the contents of the shared
    queues and returns or raises. *)
Class Collaborators (Store Res : Type) := {
  urls_populate_initial_queue : ref -> ref -> Store -> outcome unit * Store;
  urls_validate_urls : ref -> ref -> Store -> outcome unit * Store;
  urls_download_zips : ref -> ref -> Store -> outcome unit * Store;
  api_validate_jays : ref -> ref -> Store -> outcome unit * Store;
  api_merge_jays : ref -> Store -> outcome Res * Store;
  csvs_extract_csvs : ref -> ref -> Store -> outcome unit * Store;
  influx_import_data : ref -> ref -> ref -> Store -> outcome unit * Store
}.

Section HistDataCom.
Context {Store Res : Type} {helpers : Helpers} {collaborators : Collaborators Store Res}.

(** [config.args[key]] *)
Definition args_get (key : string) : M Store pyval :=
  fun w =>
    match config_args w !! key with
    | Some v => (Ret v, w)
    | None => (Raise (KeyError key), w)
    end.

(** [config.args[key] = v] *)
Definition args_set (key : string) (v : pyval) : M Store unit :=
  fun w => (Ret tt, World (sys_argv w) (<[key := v]> (config_args w)) (store w) (events w)).

(** [config.args = d] *)
Definition args_assign (d : gmap string pyval) : M Store unit :=
  fun w => (Ret tt, World (sys_argv w) d (store w) (events w)).

(** [d[key]] on a dictionary value *)
Definition getitem {V} (d : gmap string V) (key : string) : M Store V :=
  match d !! key with
  | Some v => ret v
  | None => raise (KeyError key)
  end.

(** [self.name] for an attribute that may not have been set *)
Definition getattr {V} (name : string) (slot : option V) : M Store V :=
  match slot with
  | Some v => ret v
  | None => raise (AttributeError name)
  end.

(** A collaborator method call: the call is logged, then the method acts
    on the store. *)
Definition call {A} (c : component_class) (op : operation) (args : list ref)
  (method : Store -> outcome A * Store) : M Store A :=
  emit (Call c op args) ;;;
  fun w =>
    let (o, s) := method (store w) in
    (o, World (sys_argv w) (config_args w) s (events w)).

(** Building a collaborator object. *)
Definition new (c : component_class) (args : list ref) : M Store component :=
  emit (New c args) ;;;
  ret {| cls := c; held := args |}.

(** [_HistDataCom.__init__].  Line 37: [ArgParser(options)] passes
    [options] positionally; [.copy()] of a dictionary value is the value. *)
Definition HistDataCom_init {Options : Type}
  (records_current records_next csv_chunks_queue : ref) (options : Options)
  : M Store HistDataCom :=
  parser <- ArgParser 1 [] ;;
  args_assign (_arg_list_to_set (vars (ArgParser_call parser))) ;;;
  data_directory <- args_get "data_directory" ;;
  args_set "default_download_dir" (set_working_data_dir data_directory) ;;;
  args_set "queue_filename" (VStr ".queue") ;;;
  flag <- args_get "import_to_influxdb" ;;
  (if eq_one flag then
     emit ReadInfluxYaml ;;;
     influx_yaml <- lift load_influx_yaml ;;
     section <- getitem influx_yaml "influxdb" ;;
     org <- getitem section "org" ;;
     args_set "INFLUX_ORG" org ;;;
     section <- getitem influx_yaml "influxdb" ;;
     bucket <- getitem section "bucket" ;;
     args_set "INFLUX_BUCKET" bucket ;;;
     section <- getitem influx_yaml "influxdb" ;;
     url <- getitem section "url" ;;
     args_set "INFLUX_URL" url ;;;
     section <- getitem influx_yaml "influxdb" ;;
     token <- getitem section "token" ;;
     args_set "INFLUX_TOKEN" token
   else ret tt) ;;;
  urls <- new URLs [records_current; records_next] ;;
  csvs <- new CSVs [records_current; records_next] ;;
  api <- new API [records_current; records_next] ;;
  flag <- args_get "import_to_influxdb" ;;
  if eq_one flag then
    influx <- new Influx [records_current; records_next; csv_chunks_queue] ;;
    ret {| records_current := records_current;
           records_next := records_next;
           urls := urls; csvs := csvs; api := api;
           csv_chunks_queue := Some csv_chunks_queue;
           influx := Some influx |}
  else
    ret {| records_current := records_current;
           records_next := records_next;
           urls := urls; csvs := csvs; api := api;
           csv_chunks_queue := None;
           influx := None |}.

(** [run], lines 64-65 *)
Definition validate_phase (self : HistDataCom) : M Store unit :=
  flag <- args_get "validate_urls" ;;
  if truthy flag
  then call URLs Op_validate_urls [records_current self; records_next self]
         (urls_validate_urls (records_current self) (records_next self))
  else ret tt.

(** [run], lines 67-71; [Some r] is the [return] of line 71. *)
Definition download_phase (self : HistDataCom) : M Store (option Res) :=
  flag <- args_get "download_data_archives" ;;
  if truthy flag then
    call URLs Op_download_zips [records_current self; records_next self]
      (urls_download_zips (records_current self) (records_next self)) ;;;
    from_api <- args_get "from_api" ;;
    if truthy from_api then
      call API Op_validate_jays [records_current self; records_next self]
        (api_validate_jays (records_current self) (records_next self)) ;;;
      r <- call API Op_merge_jays [records_current self]
             (api_merge_jays (records_current self)) ;;
      ret (Some r)
    else ret None
  else ret None.

(** [run], lines 73-74 *)
Definition extract_phase (self : HistDataCom) : M Store unit :=
  flag <- args_get "extract_csvs" ;;
  if truthy flag
  then call CSVs Op_extract_csvs [records_current self; records_next self]
         (csvs_extract_csvs (records_current self) (records_next self))
  else ret tt.

(** [run], lines 76-79 *)
Definition import_phase (self : HistDataCom) : M Store unit :=
  flag <- args_get "import_to_influxdb" ;;
  if truthy flag then
    _ <- getattr "influx" (influx self) ;;
    queue <- getattr "csv_chunks_queue" (csv_chunks_queue self) ;;
    call Influx Op_import_data [records_current self; records_next self; queue]
      (influx_import_data (records_current self) (records_next self) queue)
  else ret tt.

(** [_HistDataCom.run]; [None] is the implicit return at the end. *)
Definition run (self : HistDataCom) : M Store (option Res) :=
  call URLs Op_populate_initial_queue [records_current self; records_next self]
    (urls_populate_initial_queue (records_current self) (records_next self)) ;;;
  validate_phase self ;;;
  returned <- download_phase self ;;
  match returned with
  | Some r => ret (Some r)
  | None =>
      extract_phase self ;;;
      import_phase self ;;;
      ret None
  end.

End HistDataCom.

(** ** Stages *)

(** The five stages of the specification, in their fixed order, and the
    flag of [config.args] that enables each. *)
Inductive stage := Validate | Download | Extract | Clean | Load.

Definition stage_order : list stage := [Validate; Download; Extract; Clean; Load].

Definition stage_flag (s : stage) : string :=
  match s with
  | Validate => "validate_urls"
  | Download => "download_data_archives"
  | Extract => "extract_csvs"
  | Clean => "clean_data"
  | Load => "import_to_influxdb"
  end.

Definition stage_eqb (a b : stage) : bool :=
  match a, b with
  | Validate, Validate | Download, Download | Extract, Extract
  | Clean, Clean | Load, Load => true
  | _, _ => false
  end.

(** [bool(config.args[key])] for a key that is present *)
Definition flag_set (args : gmap string pyval) (key : string) : bool :=
  match args !! key with
  | Some v => truthy v
  | None => false
  end.

Definition enabled_stages (args : gmap string pyval) : list stage :=
  filter (fun s => flag_set args (stage_flag s) = true) stage_order.

(** The stage a logged call works for: [populate_initial_queue] and the
    two API calls belong to none of the five stages, and no call of [run]
    belongs to the clean stage. *)
Definition stage_of_event (e : event) : option stage :=
  match e with
  | Call _ Op_validate_urls _ => Some Validate
  | Call _ Op_download_zips _ => Some Download
  | Call _ Op_extract_csvs _ => Some Extract
  | Call _ Op_import_data _ => Some Load
  | _ => None
  end.

Definition stages_run (evs : list event) : list stage := omap stage_of_event evs.

Section Stages.
Context {Store Res : Type} {helpers : Helpers} {collaborators : Collaborators Store Res}.

(** The statements of [run] that belong to a stage; the result is the
    value [run] returns from inside the stage, if it does. *)
Definition phase (s : stage) (self : HistDataCom) : M Store (option Res) :=
  match s with
  | Validate => validate_phase self ;;; ret None
  | Download => download_phase self
  | Extract => extract_phase self ;;; ret None
  | Clean => ret None
  | Load => import_phase self ;;; ret None
  end.

Fixpoint run_stages (stages : list stage) (self : HistDataCom) : M Store (option Res) :=
  match stages with
  | [] => ret None
  | s :: rest =>
      returned <- phase s self ;;
      match returned with
      | Some r => ret (Some r)
      | None => run_stages rest self
      end
  end.

(** The calls [run] makes when every collaborator returns, read off the
    flags. *)
Definition expected_calls (self : HistDataCom) (args : gmap string pyval) : list event :=
  let rc := records_current self in
  let rn := records_next self in
  [Call URLs Op_populate_initial_queue [rc; rn]]
  ++ (if flag_set args "validate_urls" then [Call URLs Op_validate_urls [rc; rn]] else [])
  ++ (if flag_set args "download_data_archives"
      then [Call URLs Op_download_zips [rc; rn]] else [])
  ++ (if flag_set args "download_data_archives" && flag_set args "from_api"
      then [Call API Op_validate_jays [rc; rn]; Call API Op_merge_jays [rc]]
      else
        (if flag_set args "extract_csvs" then [Call CSVs Op_extract_csvs [rc; rn]] else [])
        ++ (if flag_set args "import_to_influxdb"
            then match csv_chunks_queue self with
                 | Some q => [Call Influx Op_import_data [rc; rn; q]]
                 | None => []
                 end
            else [])).

(** Every collaborator method returns on every store. *)
Definition collaborators_return : Prop :=
  (forall a b s, exists s', urls_populate_initial_queue a b s = (Ret tt, s'))
  /\ (forall a b s, exists s', urls_validate_urls a b s = (Ret tt, s'))
  /\ (forall a b s, exists s', urls_download_zips a b s = (Ret tt, s'))
  /\ (forall a b s, exists s', api_validate_jays a b s = (Ret tt, s'))
  /\ (forall a s, exists r s', api_merge_jays a s = (Ret r, s'))
  /\ (forall a b s, exists s', csvs_extract_csvs a b s = (Ret tt, s'))
  /\ (forall a b c s, exists s', influx_import_data a b c s = (Ret tt, s')).

End Stages.

(** ** An instance for concrete evaluation

    The theorems below hold for every instance of [Helpers] and
    [Collaborators]; the instance of this section only serves to run the
    embedded functions on concrete inputs. *)

(** Modelled from the spec: the helpers of [histdatacom.utils] and the
    enumerations of [histdatacom.fx_enums] are not among the embedded
    files, and the specification leaves them to the input layer.  A
    year-month is read as [YYYYMM]: the year is the first four
    characters, the month the last two of a longer string. *)
Definition reference_year (v : yearmonth) : string :=
  match v with
  | Some s => substring 0 4 s
  | None => ""
  end.

Definition reference_month (v : yearmonth) : string :=
  match v with
  | Some s =>
      if Nat.ltb 4 (String.length s) then substring (String.length s - 2) 2 s else ""
  | None => ""
  end.

(** The namespace with its five flags replaced. *)
Definition set_flags (ns : ArgsNamespace) (v d x c i : bool) : ArgsNamespace :=
  {| validate_urls := v;
     download_data_archives := d;
     extract_csvs := x;
     clean_data := c;
     import_to_influxdb := i;
     pairs := pairs ns; platforms := platforms ns; timeframes := timeframes ns;
     start_yearmonth := start_yearmonth ns;
     end_yearmonth := end_yearmonth ns;
     data_directory := data_directory ns |}.

(** A word that begins with [-]. *)
Definition is_option_word (a : string) : bool :=
  match a with
  | String c _ => Ascii.eqb c "-"%char
  | EmptyString => false
  end.

(** argparse on a command line whose words are the flags
    [-V -D -X -C -I] and the options [-s V] and [-e V], the value a word
    of its own that does not begin with [-]; long names, abbreviations
    and attached values ([-s=V]) are not covered.  A flag sets its
    attribute; a value is handed to the callback; an option without its
    value is a usage error on the spot, any other word one when the
    command line is used up, after the string default of an option that
    was not given has gone to the callback; on a usage error argparse
    exits with 2.  [seen_s] and [seen_e] tell whether [-s] and [-e] were
    met, [extras] whether a word was not recognised. *)
Fixpoint reference_parse_args (argv : list string) (ns : ArgsNamespace)
  (seen_s seen_e extras : bool) : list (yearmonth_option * string) * outcome ArgsNamespace :=
  match argv with
  | [] =>
      ((if seen_s then [] else [(Opt_start, "")])
       ++ (if seen_e then [] else [(Opt_end, "")]),
       if extras then SystemExit (ExitInt 2) else Ret ns)%list
  | a :: r =>
      if String.eqb a "-s" then
        match r with
        | v :: r' =>
            if is_option_word v then ([], SystemExit (ExitInt 2))
            else
              let (met, ended) := reference_parse_args r' ns true seen_e extras in
              ((Opt_start, v) :: met, ended)
        | [] => ([], SystemExit (ExitInt 2))
        end
      else if String.eqb a "-e" then
        match r with
        | v :: r' =>
            if is_option_word v then ([], SystemExit (ExitInt 2))
            else
              let (met, ended) := reference_parse_args r' ns seen_s true extras in
              ((Opt_end, v) :: met, ended)
        | [] => ([], SystemExit (ExitInt 2))
        end
      else if String.eqb a "-V" then
        reference_parse_args r
          (set_flags ns true (download_data_archives ns) (extract_csvs ns) (clean_data ns)
             (import_to_influxdb ns)) seen_s seen_e extras
      else if String.eqb a "-D" then
        reference_parse_args r
          (set_flags ns (validate_urls ns) true (extract_csvs ns) (clean_data ns)
             (import_to_influxdb ns)) seen_s seen_e extras
      else if String.eqb a "-X" then
        reference_parse_args r
          (set_flags ns (validate_urls ns) (download_data_archives ns) true (clean_data ns)
             (import_to_influxdb ns)) seen_s seen_e extras
      else if String.eqb a "-C" then
        reference_parse_args r
          (set_flags ns (validate_urls ns) (download_data_archives ns) (extract_csvs ns) true
             (import_to_influxdb ns)) seen_s seen_e extras
      else if String.eqb a "-I" then
        reference_parse_args r
          (set_flags ns (validate_urls ns) (download_data_archives ns) (extract_csvs ns)
             (clean_data ns) true) seen_s seen_e extras
      else reference_parse_args r ns seen_s seen_e true
  end.

Definition reference_influx_yaml : gmap string (gmap string pyval) :=
  {[ "influxdb" :=
       {[ "org" := VStr "acme"; "bucket" := VStr "fx";
          "url" := VStr "http://localhost:8086"; "token" := VStr "secret" ]} ]}.

Definition reference_helpers : Helpers :=
  {| get_year_from_datemonth := reference_year;
     get_month_from_datemonth := reference_month;
     get_current_datemonth_gmt_plus5 := "202206";
     Pairs_list_keys := VSet {[ "eurusd" ]};
     Platform_list_values := VSet {[ "ascii" ]};
     Timeframe_list_keys := VSet {[ "1-minute-bar-quotes" ]};
     parse_args := fun argv ns => reference_parse_args (tail argv) ns false false false;
     set_working_data_dir := fun v => v;
     load_influx_yaml := Ret reference_influx_yaml |}.

(** Collaborators over a store that lists, in order, the work done on the
    queues. *)
Definition reference_collaborators : Collaborators (list string) (list string) :=
  {| urls_populate_initial_queue := fun _ _ s => (Ret tt, (s ++ ["populated"])%list);
     urls_validate_urls := fun _ _ s => (Ret tt, (s ++ ["validated"])%list);
     urls_download_zips := fun _ _ s => (Ret tt, (s ++ ["downloaded"])%list);
     api_validate_jays := fun _ _ s => (Ret tt, (s ++ ["jays validated"])%list);
     api_merge_jays := fun _ s => (Ret s, (s ++ ["jays merged"])%list);
     csvs_extract_csvs := fun _ _ s => (Ret tt, (s ++ ["extracted"])%list);
     influx_import_data := fun _ _ _ s => (Ret tt, (s ++ ["imported"])%list) |}.

(** The world of a command line and of a [config.args]. *)
Definition world_of_argv (argv : list string) : world (list string) :=
  World argv ∅ [] [].

Definition world_of_args (args : gmap string pyval) : world (list string) :=
  World ["histdatacom"] args [] [].

(** A [config.args] holding the six flags [run] may read. *)
Definition args_of_flags (v d x c i from_api : bool) : gmap string pyval :=
  list_to_map
    [ ("validate_urls", VBool v); ("download_data_archives", VBool d);
      ("extract_csvs", VBool x); ("clean_data", VBool c);
      ("import_to_influxdb", VBool i); ("from_api", VBool from_api);
      ("data_directory", VStr "data") ].

Definition reference_self (with_influx : bool) : HistDataCom :=
  {| records_current := 1%nat;
     records_next := 2%nat;
     urls := {| cls := URLs; held := [1%nat; 2%nat] |};
     csvs := {| cls := CSVs; held := [1%nat; 2%nat] |};
     api := {| cls := API; held := [1%nat; 2%nat] |};
     csv_chunks_queue := if with_influx then Some 3%nat else None;
     influx := if with_influx
               then Some {| cls := Influx; held := [1%nat; 2%nat; 3%nat] |}
               else None |}.

(** ** Vocabulary of the statements *)

(** What [_arg_list_to_set] does to one value. *)
Definition list_to_set_value (v : pyval) : pyval :=
  match v with
  | VList l => VSet (set_of_list l)
  | _ => v
  end.

(** The state apart from the event log. *)
Definition same_state {Store} (w w' : world Store) : Prop :=
  sys_argv w' = sys_argv w /\ config_args w' = config_args w /\ store w' = store w.

(** A computation that neither touches the state nor leaves through
    [sys.exit]. *)
Definition quiet {Store A} (m : M Store A) : Prop :=
  forall w, exists o, m w = (o, w) /\ forall a, o <> SystemExit a.

(** How the input gate may end from [w]: by returning or raising with
    nothing logged, or by [sys.exit] after one logged item, the help text
    with status 1 or the text of the error it exits with. *)
Definition gate_result {Store A} (w : world Store) (r : outcome A * world Store) : Prop :=
  same_state w r.2
  /\ match r.1 with
     | Ret _ | Raise _ => events r.2 = events w
     | SystemExit a =>
         (a = ExitInt 1 /\ events r.2 = (events w ++ [PrintHelp])%list)
         \/ exists msg, a = ExitObject (ValueError msg)
                        /\ events r.2 = (events w ++ [Print msg])%list
     end.

(** The namespace with the given year-months and every other attribute at
    its default. *)
Definition namespace_of {helpers : Helpers} (s e : yearmonth) : ArgsNamespace :=
  set_yearmonths ArgsNamespace_init (s, e).

(** The world in which a check has printed [msg]. *)
Definition printed (argv : list string) (msg : string) : world (list string) :=
  World argv ∅ [] [Print msg].

(** [config.args] after lines 38-39. *)
Definition with_directories {helpers : Helpers} (args : gmap string pyval) (dir : pyval)
  : gmap string pyval :=
  <["queue_filename" := VStr ".queue"]>
    (<["default_download_dir" := set_working_data_dir dir]> args).

(** The credential file holds the four settings the constructor reads. *)
Definition credentials {helpers : Helpers} : Prop :=
  exists yaml section,
    load_influx_yaml = Ret yaml
    /\ yaml !! "influxdb" = Some section
    /\ exists org bucket url token,
         section !! "org" = Some org
         /\ section !! "bucket" = Some bucket
         /\ section !! "url" = Some url
         /\ section !! "token" = Some token.

(** A list of stages without the stage [s]. *)
Definition without (s : stage) (stages : list stage) : list stage :=
  List.filter (fun t => negb (stage_eqb t s)) stages.

(** A computation that leaves [config.args] as it is. *)
Definition keeps_args {Store A} (m : M Store A) : Prop :=
  forall w, config_args (m w).2 = config_args w.


(** The end of a check that refuses: [msg] is printed and the process
    exits with the error that carries it. *)
Definition rejected_with {Store A} (msg : string) (w : world Store)
  : outcome A * world Store :=
  (SystemExit (ExitObject (ValueError msg)),
   World (sys_argv w) (config_args w) (store w) (events w ++ [Print msg])).

(** The integer that four year digits and two month digits denote. *)
Definition yearmonth_number (y1 y2 y3 y4 m1 m2 : ascii) : Z :=
  100 * (1000 * digit_value y1 + 100 * digit_value y2 + 10 * digit_value y3 + digit_value y4)
  + (10 * digit_value m1 + digit_value m2).


(** The namespace [ArgParser()] leaves for the command line [-X -I],
    with the enumerations of the instance above. *)
Definition import_namespace : ArgsNamespace :=
  {| validate_urls := true;
     download_data_archives := false;
     extract_csvs := true;
     clean_data := false;
     import_to_influxdb := true;
     pairs := Pairs_list_keys (Helpers:=reference_helpers);
     platforms := Platform_list_values (Helpers:=reference_helpers);
     timeframes := Timeframe_list_keys (Helpers:=reference_helpers);
     start_yearmonth := None;
     end_yearmonth := None;
     data_directory := "data" |}.

(** * Properties *)

(** ** [_arg_list_to_set] *)

Lemma arg_list_to_set_step_lookup (args : gmap string pyval) (arg k : string) :
  arg_list_to_set_step args arg !! k
  = if decide (k = arg) then list_to_set_value <$> args !! k else args !! k.
Proof.
  unfold arg_list_to_set_step.
  destruct (decide (k = arg)) as [->|Hne].
  - destruct (args !! arg) as [[]|] eqn:E; rewrite ?lookup_insert_eq, ?E; reflexivity.
  - destruct (args !! arg) as [[]|] eqn:E; try reflexivity.
    apply lookup_insert_ne. congruence.
Qed.

Lemma foldl_arg_list_to_set_lookup (ks : list string) :
  forall (args : gmap string pyval) (k : string),
    NoDup ks ->
    foldl arg_list_to_set_step args ks !! k
    = if decide (k ∈ ks) then list_to_set_value <$> args !! k else args !! k.
Proof.
  induction ks as [|a ks IH]; intros args k Hnd.
  - simpl. destruct (decide (k ∈ [])) as [Hin|]; [|reflexivity].
    inversion Hin.
  - apply NoDup_cons in Hnd as [Ha Hnd]. simpl.
    rewrite IH by assumption.
    rewrite arg_list_to_set_step_lookup.
    destruct (decide (k = a)) as [->|Hne].
    + destruct (decide (a ∈ ks)); [contradiction|].
      destruct (decide (a ∈ a :: ks)) as [|Hn]; [reflexivity|].
      exfalso. apply Hn. left.
    + destruct (decide (k ∈ ks)) as [Hin|Hnin].
      * destruct (decide (k ∈ a :: ks)) as [|Hn]; [reflexivity|].
        exfalso. apply Hn. right. assumption.
      * destruct (decide (k ∈ a :: ks)) as [Hin|]; [|reflexivity].
        apply elem_of_cons in Hin as [?|?]; contradiction.
Qed.

Lemma arg_list_to_set_fmap (args : gmap string pyval) :
  _arg_list_to_set args = list_to_set_value <$> args.
Proof.
  apply map_eq. intros k. unfold _arg_list_to_set.
  rewrite foldl_arg_list_to_set_lookup by apply NoDup_fst_map_to_list.
  rewrite lookup_fmap.
  destruct (decide (k ∈ (map_to_list args).*1)) as [|Hnin]; [reflexivity|].
  destruct (args !! k) as [v|] eqn:E; [|reflexivity].
  exfalso. apply Hnin. apply list_elem_of_fmap.
  exists (k, v). split; [reflexivity|]. apply elem_of_map_to_list. exact E.
Qed.

Lemma list_to_set_value_idemp (v : pyval) :
  list_to_set_value (list_to_set_value v) = list_to_set_value v.
Proof. destruct v; reflexivity. Qed.

(** C10. [_arg_list_to_set] keeps the key set, replaces every list-valued
    entry by the set of the elements of the list, leaves every other
    entry as it is; applied to its own result it changes nothing. *)
Theorem arg_list_to_set_spec (args : gmap string pyval) :
  dom (_arg_list_to_set args) = dom args
  /\ (forall k l, args !! k = Some (VList l) ->
        _arg_list_to_set args !! k = Some (VSet (list_to_set l)))
  /\ (forall k v, args !! k = Some v -> isinstance_list v = false ->
        _arg_list_to_set args !! k = Some v)
  /\ (forall k, args !! k = None -> _arg_list_to_set args !! k = None)
  /\ _arg_list_to_set (_arg_list_to_set args) = _arg_list_to_set args.
Proof.
  rewrite !arg_list_to_set_fmap. repeat split.
  - apply dom_fmap_L.
  - intros k l E. rewrite lookup_fmap, E. reflexivity.
  - intros k v E Hv. rewrite lookup_fmap, E. destruct v; try reflexivity. discriminate.
  - intros k E. rewrite lookup_fmap, E. reflexivity.
  - rewrite <- map_fmap_compose. apply map_fmap_ext.
    intros k v _. apply list_to_set_value_idemp.
Qed.

(** ** The monad *)

Section MonadFacts.
Context {Store : Type}.

Lemma bind_Ret {A B} (m : M Store A) (k : A -> M Store B) w a w' :
  m w = (Ret a, w') -> bind m k w = k a w'.
Proof. intros E. unfold bind. rewrite E. reflexivity. Qed.

Lemma bind_Raise {A B} (m : M Store A) (k : A -> M Store B) w e w' :
  m w = (Raise e, w') -> bind m k w = (Raise e, w').
Proof. intros E. unfold bind. rewrite E. reflexivity. Qed.

Lemma bind_SystemExit {A B} (m : M Store A) (k : A -> M Store B) w a w' :
  m w = (SystemExit a, w') -> bind m k w = (SystemExit a, w').
Proof. intros E. unfold bind. rewrite E. reflexivity. Qed.

Lemma same_state_refl (w : world Store) : same_state w w.
Proof. repeat split. Qed.

Lemma same_state_trans (w1 w2 w3 : world Store) :
  same_state w1 w2 -> same_state w2 w3 -> same_state w1 w3.
Proof.
  intros (A1 & A2 & A3) (B1 & B2 & B3). repeat split; congruence.
Qed.

Lemma quiet_ret {A} (a : A) : quiet (ret (Store:=Store) a).
Proof. intros w. exists (Ret a). split; [reflexivity|discriminate]. Qed.

Lemma quiet_raise {A} (e : exn) : quiet (raise (Store:=Store) (A:=A) e).
Proof. intros w. exists (Raise e). split; [reflexivity|discriminate]. Qed.

Lemma py_int_not_exit (s : string) (a : exit_arg) : py_int s <> SystemExit a.
Proof.
  unfold py_int. repeat case_match; discriminate.
Qed.

Lemma py_int_cases (s : string) :
  (exists n, py_int s = Ret n) \/ (exists msg, py_int s = Raise (ValueError msg)).
Proof.
  unfold py_int. repeat case_match; eauto.
Qed.

Lemma quiet_py_int (s : string) : quiet (lift (Store:=Store) (py_int s)).
Proof.
  intros w. exists (py_int s). split; [reflexivity|]. apply py_int_not_exit.
Qed.

Lemma quiet_read_local {A} (name : string) (slot : option A) :
  quiet (read_local (Store:=Store) name slot).
Proof. destruct slot; [apply quiet_ret|apply quiet_raise]. Qed.

Lemma quiet_bind {A B} (m : M Store A) (k : A -> M Store B) :
  quiet m -> (forall a, quiet (k a)) -> quiet (bind m k).
Proof.
  intros Hm Hk w. destruct (Hm w) as (o & E & Ho). unfold bind. rewrite E.
  destruct o as [a|e|x].
  - apply Hk.
  - exists (Raise e). split; [reflexivity|discriminate].
  - exfalso. exact (Ho x eq_refl).
Qed.

Lemma gate_result_quiet {A} (m : M Store A) (w : world Store) :
  quiet m -> gate_result w (m w).
Proof.
  intros Hm. destruct (Hm w) as (o & E & Ho). rewrite E.
  split; [apply same_state_refl|]. simpl.
  destruct o as [a|e|x]; [reflexivity|reflexivity|].
  exfalso. exact (Ho x eq_refl).
Qed.

Lemma gate_result_bind {A B} (m : M Store A) (k : A -> M Store B) (w : world Store) :
  gate_result w (m w) ->
  (forall a w1, m w = (Ret a, w1) -> gate_result w1 (k a w1)) ->
  gate_result w (bind m k w).
Proof.
  intros Hm Hk. unfold bind. destruct (m w) as [[a|e|x] w1] eqn:E.
  - destruct Hm as [Hs He]. simpl in Hs, He.
    destruct (Hk a w1 eq_refl) as [Hs' He'].
    split; [eapply same_state_trans; eassumption|].
    rewrite <- He. exact He'.
  - exact Hm.
  - exact Hm.
Qed.

Lemma gate_result_exit_on_datetime_error {A} (msg : string) (w : world Store) :
  gate_result w (exit_on_datetime_error (A:=A) (ValueError msg) w).
Proof.
  split; [repeat split|]. simpl. right. exists msg. split; reflexivity.
Qed.

(** A [try] block with a quiet body and the exit handler. *)
Lemma gate_result_try {A} (body : M Store A) (w : world Store) :
  quiet body ->
  gate_result w (try_except_ValueError body exit_on_datetime_error w).
Proof.
  intros Hb. destruct (Hb w) as (o & E & Ho).
  unfold try_except_ValueError. rewrite E.
  destruct o as [a|[]|x]; try (split; [apply same_state_refl|reflexivity]).
  - apply gate_result_exit_on_datetime_error.
  - exfalso. exact (Ho x eq_refl).
Qed.

End MonadFacts.

Ltac quiet_step :=
  first
    [ apply quiet_ret
    | apply quiet_raise
    | apply quiet_py_int
    | apply quiet_read_local
    | apply quiet_bind; [|intros ?]
    | match goal with
      | |- quiet (if ?b then _ else _) => destruct b
      | |- quiet (match ?x with _ => _ end) => destruct x
      end ].

Ltac quiet_tac := cbv zeta; repeat quiet_step.

(** ** The checks of the input gate *)

Section Gate.
Context {Store : Type} {helpers : Helpers}.

Lemma gate_validate_yearmonth_format (v : string) (w : world Store) :
  gate_result w (validate_yearmonth_format v w).
Proof. apply gate_result_try. quiet_tac. Qed.

Lemma gate_convert_yearmonths (met : list (yearmonth_option * string))
  (p : yearmonth * yearmonth) (w : world Store) :
  gate_result w (convert_yearmonths met p w).
Proof.
  revert p w. induction met as [|[option v] rest IH]; intros p w.
  - apply gate_result_quiet, quiet_ret.
  - cbn [convert_yearmonths].
    apply gate_result_bind; [apply gate_validate_yearmonth_format|].
    intros r w1 _. apply IH.
Qed.

Lemma gate_check_for_start_in_yearmonth ns (w : world Store) :
  gate_result w (check_for_start_in_yearmonth ns w).
Proof. apply gate_result_try. quiet_tac. Qed.

Lemma gate_check_for_now_in_yearmonth ns (w : world Store) :
  gate_result w (check_for_now_in_yearmonth ns w).
Proof. apply gate_result_quiet. unfold check_for_now_in_yearmonth. quiet_tac. Qed.

Lemma gate_check_cli_start_yearmonth ns (w : world Store) :
  gate_result w (check_cli_start_yearmonth ns w).
Proof. apply gate_result_try. quiet_tac. Qed.

Lemma gate_check_cli_end_yearmonth ns (w : world Store) :
  gate_result w (check_cli_end_yearmonth ns w).
Proof. apply gate_result_try. quiet_tac. Qed.

Lemma gate_check_for_same_start_yearmonth ns (w : world Store) :
  gate_result w (check_for_same_start_yearmonth ns w).
Proof. apply gate_result_try. quiet_tac. Qed.

Lemma gate_check_yearmonth_in_range flag gap v (w : world Store) :
  gate_result w (check_yearmonth_in_range flag gap v w).
Proof. apply gate_result_try. quiet_tac. Qed.

Lemma gate_check_start_lessthan_end ns (w : world Store) :
  gate_result w (check_start_lessthan_end ns w).
Proof. apply gate_result_try. quiet_tac. Qed.

Lemma gate_check_datetime_input ns (w : world Store) :
  gate_result w (check_datetime_input ns w).
Proof.
  unfold check_datetime_input.
  apply gate_result_bind.
  - destruct (ym_truthy (start_yearmonth ns) || ym_truthy (end_yearmonth ns)).
    + apply gate_result_bind; [apply gate_check_for_start_in_yearmonth|intros p1 w1 _].
      apply gate_result_bind; [apply gate_check_for_now_in_yearmonth|intros p2 w2 _].
      apply gate_result_bind; [apply gate_check_cli_start_yearmonth|intros p3 w3 _].
      apply gate_result_bind; [apply gate_check_cli_end_yearmonth|intros [] w4 _].
      apply gate_result_bind; [apply gate_check_for_same_start_yearmonth|intros [] w5 _].
      apply gate_result_quiet, quiet_ret.
    + apply gate_result_quiet, quiet_ret.
  - intros ns' w1 _. cbv zeta.
    apply gate_result_bind; [apply gate_check_yearmonth_in_range|intros [] w2 _].
    apply gate_result_bind; [apply gate_check_yearmonth_in_range|intros [] w3 _].
    apply gate_result_bind; [apply gate_check_start_lessthan_end|intros [] w4 _].
    apply gate_result_quiet, quiet_ret.
Qed.

(** [ArgParser()] on a command line that argparse parses, or on one
    without arguments. *)
Lemma gate_ArgParser (keywords : list string) (w : world Store) :
  (List.length (sys_argv w) = 1%nat
   \/ exists parsed, (parse_args (sys_argv w) ArgsNamespace_init).2 = Ret parsed) ->
  gate_result w (ArgParser 0 keywords w).
Proof.
  intros Hargv. unfold ArgParser, ArgParser_init_body.
  apply gate_result_bind.
  - apply gate_result_quiet. intros w0. eexists. split; [reflexivity|].
    unfold bind_arguments. simpl. repeat case_match; discriminate.
  - intros [] w1 E. cbv zeta.
    assert (w1 = w) as ->.
    { unfold lift in E. congruence. }
    unfold bind at 1. unfold get_argv.
    destruct (Nat.eqb (List.length (sys_argv w)) 1) eqn:Hlen.
    + split; [repeat split|]. simpl. left. split; reflexivity.
    + destruct Hargv as [Hone|[parsed Hparsed]].
      { rewrite Hone in Hlen. discriminate. }
      apply gate_result_bind; [|intros ns w2 _; apply gate_check_datetime_input].
      unfold ArgParser_parse_args. unfold bind at 1. unfold get_argv.
      apply gate_result_bind; [apply gate_convert_yearmonths|intros p w3 _].
      rewrite Hparsed.
      apply gate_result_bind; [apply gate_result_quiet, quiet_ret|intros ? w4 _].
      apply gate_result_quiet, quiet_ret.
Qed.

End Gate.

(** ** Rejection by the input gate *)

Section Rejection.
Context {Store : Type} {helpers : Helpers}.

(** C4. Whenever [ArgParser()] does not accept the command line (no
    argument at all, a year-month that a check refuses, or a check that
    fails with an exception) the process ends with status 1, hence
    non-zero; what it has logged by then holds no collaborator call, and
    the contents of the record queues are untouched. *)
Theorem rejection_exits_nonzero_before_any_stage
  (keywords : list string) (w w' : world Store) (o : outcome ArgsNamespace) :
  (List.length (sys_argv w) = 1%nat
   \/ exists parsed, (parse_args (sys_argv w) ArgsNamespace_init).2 = Ret parsed) ->
  ArgParser 0 keywords w = (o, w') ->
  (forall ns, o <> Ret ns) ->
  process_status o = 1
  /\ process_status o <> 0
  /\ store w' = store w
  /\ stages_run (events w') = stages_run (events w)
  /\ exists evs, events w' = (events w ++ evs)%list
                 /\ Forall (fun e => is_call e = false) evs.
Proof.
  intros Hargv E Hrej.
  pose proof (gate_ArgParser keywords w Hargv) as [(_ & _ & Hst) Hev].
  rewrite E in Hst, Hev. simpl in Hst, Hev.
  assert (process_status o = 1) as Hs.
  { destruct o as [ns|e|a]; [destruct (Hrej ns eq_refl)|reflexivity|].
    destruct Hev as [[-> _]|(msg & -> & _)]; reflexivity. }
  split; [exact Hs|]. split; [rewrite Hs; discriminate|].
  split; [exact Hst|].
  destruct o as [ns|e|a].
  - destruct (Hrej ns eq_refl).
  - rewrite Hev. split; [reflexivity|]. exists []. split; [|constructor].
    symmetry. apply app_nil_r.
  - destruct Hev as [[_ He]|(msg & _ & He)]; rewrite He; unfold stages_run.
    + split; [rewrite omap_app; simpl; apply app_nil_r|].
      eexists. split; [reflexivity|]. repeat constructor.
    + split; [rewrite omap_app; simpl; apply app_nil_r|].
      eexists. split; [reflexivity|]. repeat constructor.
Qed.

(** C5, as the code has it.  Whenever [ArgParser()] does not accept the
    command line, the process emits no summary report.  All that is
    written before it ends is: the help text, when there is no argument;
    the text of the error, when a check refuses, once by [print(err)]
    and once more by the interpreter for [sys.exit(err)]; the traceback
    alone, when a check fails with an uncaught exception. *)
Theorem rejection_writes_only_the_error
  (keywords : list string) (w w' : world Store) (o : outcome ArgsNamespace) :
  (List.length (sys_argv w) = 1%nat
   \/ exists parsed, (parse_args (sys_argv w) ArgsNamespace_init).2 = Ret parsed) ->
  ArgParser 0 keywords w = (o, w') ->
  (forall ns, o <> Ret ns) ->
  exists written,
    (events w' ++ interpreter_writes o = events w ++ written)%list
    /\ Forall (fun e => is_summary e = false) written
    /\ match o with
       | Ret _ => False
       | Raise e => written = [Traceback e]
       | SystemExit a =>
           (a = ExitInt 1 /\ written = [PrintHelp])
           \/ exists msg, a = ExitObject (ValueError msg)
                          /\ written = [Print msg; Stderr msg]
       end.
Proof.
  intros Hargv E Hrej.
  pose proof (gate_ArgParser keywords w Hargv) as [_ Hev].
  rewrite E in Hev. simpl in Hev.
  destruct o as [ns|e|a].
  - destruct (Hrej ns eq_refl).
  - exists [Traceback e]. rewrite Hev.
    split; [reflexivity|]. split; [repeat constructor|reflexivity].
  - destruct Hev as [[-> He]|(msg & -> & He)]; rewrite He.
    + exists [PrintHelp]. split; [apply app_nil_r|].
      split; [repeat constructor|]. left. split; reflexivity.
    + exists [Print msg; Stderr msg].
      split; [rewrite <- app_assoc; reflexivity|].
      split; [repeat constructor|]. right. exists msg. split; reflexivity.
Qed.

(** C9. With a falsy start and a truthy end year-month,
    [check_for_now_in_yearmonth] raises [UnboundLocalError], a
    [NameError], on its local [end_yearmonth]; [check_datetime_input]
    lets it through: the outcome is that exception, not the
    [SystemExit] of the validation errors, and nothing is printed. *)
Theorem end_without_start_raises_NameError (ns : ArgsNamespace) (w : world Store) :
  ym_truthy (start_yearmonth ns) = false ->
  ym_truthy (end_yearmonth ns) = true ->
  check_for_now_in_yearmonth ns w = (Raise (UnboundLocalError "end_yearmonth"), w)
  /\ check_datetime_input ns w = (Raise (UnboundLocalError "end_yearmonth"), w)
  /\ is_NameError (UnboundLocalError "end_yearmonth") = true.
Proof.
  intros Hs He. split; [|split; [|reflexivity]].
  - unfold check_for_now_in_yearmonth. cbv zeta. rewrite Hs. reflexivity.
  - unfold check_datetime_input. rewrite Hs, He. simpl orb. cbv iota.
    assert (check_for_start_in_yearmonth ns w
            = (Ret (start_yearmonth ns, end_yearmonth ns), w)) as E1.
    { unfold check_for_start_in_yearmonth, try_except_ValueError. cbv zeta.
      rewrite Hs. reflexivity. }
    apply bind_Raise. rewrite (bind_Ret _ _ _ _ _ E1). cbv zeta.
    apply bind_Raise.
    unfold check_for_now_in_yearmonth. cbv zeta. simpl. rewrite Hs. reflexivity.
Qed.

End Rejection.

(** C8. [_HistDataCom.__init__] raises [TypeError] at its first
    statement, whatever its four arguments: [ArgParser(options)] hands
    two positional arguments to an [__init__] that takes one.  The state
    is as it was, and the constructor does not return. *)
Theorem HistDataCom_init_raises_TypeError
  {Store : Type} {helpers : Helpers} {Options : Type}
  (records_current records_next csv_chunks_queue : ref) (options : Options)
  (w : world Store) :
  HistDataCom_init records_current records_next csv_chunks_queue options w
  = (Raise (TypeError
       "ArgParser.__init__() takes 1 positional argument but 2 were given"), w)
  /\ forall self w',
       HistDataCom_init records_current records_next csv_chunks_queue options w
       <> (Ret self, w').
Proof.
  split; [reflexivity|]. intros self w'. discriminate.
Qed.

(** ** Equal start and end *)

Section SameMonth.
Context {Store : Type} {helpers : Helpers}.

(** The world after [print(msg)]. *)
Lemma exit_on_datetime_error_eq {A} (msg : string) (w : world Store) :
  exit_on_datetime_error (A:=A) (ValueError msg) w
  = (SystemExit (ExitObject (ValueError msg)),
     World (sys_argv w) (config_args w) (store w) (events w ++ [Print msg])).
Proof. reflexivity. Qed.

Lemma check_cli_start_yearmonth_cases (ns : ArgsNamespace) (w : world Store) :
  (exists msg, check_cli_start_yearmonth ns w
               = exit_on_datetime_error (ValueError msg) w)
  \/ (ym_truthy (end_yearmonth ns) = false
      /\ check_cli_start_yearmonth ns w
         = (Ret (Some (get_year_from_datemonth (start_yearmonth ns) ++ "00"), None), w))
  \/ check_cli_start_yearmonth ns w = (Ret (start_yearmonth ns, end_yearmonth ns), w).
Proof.
  unfold check_cli_start_yearmonth, try_except_ValueError. cbv zeta.
  destruct (str_truthy (get_month_from_datemonth (start_yearmonth ns))); simpl negb; cbv iota.
  - destruct (String.eqb _ "00"); [left; eexists; reflexivity|].
    unfold bind, lift.
    destruct (py_int_cases (get_month_from_datemonth (start_yearmonth ns)))
      as [[m E]|[msg E]]; rewrite E; simpl.
    + destruct (12 <? m); [left; eexists; reflexivity|right; right; reflexivity].
    + left; eexists; reflexivity.
  - destruct (ym_truthy (end_yearmonth ns)).
    + destruct (str_truthy _); simpl; left; eexists; reflexivity.
    + right; left. split; reflexivity.
Qed.

Lemma check_cli_end_yearmonth_cases (ns : ArgsNamespace) (w : world Store) :
  (exists msg, check_cli_end_yearmonth ns w
               = exit_on_datetime_error (ValueError msg) w)
  \/ check_cli_end_yearmonth ns w = (Ret tt, w).
Proof.
  unfold check_cli_end_yearmonth, try_except_ValueError. cbv zeta.
  destruct (ym_truthy (end_yearmonth ns)); [|right; reflexivity].
  destruct (str_truthy _ && negb _); [left; eexists; reflexivity|].
  destruct (String.eqb _ "00"); [left; eexists; reflexivity|].
  unfold bind, lift.
  destruct (py_int_cases (get_month_from_datemonth (end_yearmonth ns)))
    as [[m E]|[msg E]]; rewrite E; simpl.
  - destruct (12 <? m); [left; eexists; reflexivity|right; reflexivity].
  - left; eexists; reflexivity.
Qed.

Lemma check_for_same_start_yearmonth_equal (ns : ArgsNamespace) (w : world Store) :
  start_yearmonth ns = end_yearmonth ns ->
  check_for_same_start_yearmonth ns w
  = exit_on_datetime_error
      (ValueError (err_text_start_and_end_cannot_be_the_same
                     (start_yearmonth ns) (end_yearmonth ns))) w.
Proof.
  intros E. unfold check_for_same_start_yearmonth, try_except_ValueError.
  cbv zeta. rewrite <- E. rewrite String.eqb_refl. reflexivity.
Qed.

Lemma set_yearmonths_same (ns : ArgsNamespace) (s e : yearmonth) :
  start_yearmonth ns = s -> end_yearmonth ns = e -> set_yearmonths ns (s, e) = ns.
Proof. intros <- <-. destruct ns. reflexivity. Qed.

(** C6, as the code has it.  A configuration whose start and end
    year-month are the same non-empty string, other than the keyword
    [now], is rejected: [check_datetime_input] prints an error text and
    exits with that error. *)
Theorem same_start_and_end_is_rejected (ns : ArgsNamespace) (v : string)
  (w : world Store) :
  v <> "" -> v <> "now" ->
  start_yearmonth ns = Some v -> end_yearmonth ns = Some v ->
  exists msg,
    check_datetime_input ns w
    = (SystemExit (ExitObject (ValueError msg)),
       World (sys_argv w) (config_args w) (store w) (events w ++ [Print msg])).
Proof.
  intros Hne Hnow Hs He.
  assert (ym_truthy (Some v) = true) as Ht.
  { simpl. apply negb_true_iff, String.eqb_neq. exact Hne. }
  assert (ym_eq (Some v) "now" = false) as Hn.
  { simpl. apply String.eqb_neq. exact Hnow. }
  assert ((exists msg, check_for_start_in_yearmonth ns w
                       = exit_on_datetime_error (ValueError msg) w)
          \/ check_for_start_in_yearmonth ns w = (Ret (Some v, Some v), w)) as E1.
  { unfold check_for_start_in_yearmonth, try_except_ValueError. cbv zeta.
    rewrite Hs, He, Ht. simpl andb.
    destruct (ym_eq (Some v) "start"); [left; eexists; reflexivity|right; reflexivity]. }
  assert (check_for_now_in_yearmonth ns w = (Ret (Some v, Some v), w)) as E2.
  { unfold check_for_now_in_yearmonth. cbv zeta.
    rewrite Hs, He, Ht, Hn. reflexivity. }
  pose proof (check_cli_start_yearmonth_cases ns w) as E3.
  rewrite Hs, He, Ht in E3.
  pose proof (check_cli_end_yearmonth_cases ns w) as E4.
  pose proof (check_for_same_start_yearmonth_equal ns w) as E5.
  rewrite Hs, He in E5. specialize (E5 eq_refl).
  assert (set_yearmonths ns (Some v, Some v) = ns) as Hset
    by (apply set_yearmonths_same; assumption).
  unfold check_datetime_input. rewrite Hs, He, Ht. simpl orb. cbv iota.
  match goal with
  | |- exists msg, bind ?m _ _ = _ =>
      enough (exists msg,
                m w = (SystemExit (ExitObject (ValueError msg)),
                       World (sys_argv w) (config_args w) (store w)
                         (events w ++ [Print msg]))) as [msg Hin];
      [exists msg; apply bind_SystemExit; exact Hin|]
  end.
  destruct E1 as [[msg E1]|E1].
  { exists msg. apply bind_SystemExit. exact E1. }
  rewrite (bind_Ret _ _ _ _ _ E1). cbv beta zeta.
  rewrite !Hset.
  rewrite (bind_Ret _ _ _ _ _ E2). cbv beta zeta.
  rewrite !Hset.
  destruct E3 as [[msg E3]|[[Hf _]|E3]]; [|discriminate|].
  { exists msg. apply bind_SystemExit. exact E3. }
  rewrite (bind_Ret _ _ _ _ _ E3). cbv beta zeta.
  rewrite !Hset.
  destruct E4 as [[msg E4]|E4].
  { exists msg. apply bind_SystemExit. exact E4. }
  rewrite (bind_Ret _ _ _ _ _ E4).
  eexists. apply bind_SystemExit. exact E5.
Qed.

End SameMonth.

(** ** Concrete runs of the input gate *)


Lemma rejection_exits_nonzero_before_any_stage_witness :
  let w := world_of_argv ["histdatacom"; "-s"; "2021-13"] in
  let msg := err_text_start_month_greater_than_12 (Some "202113") in
  let o : outcome ArgsNamespace := SystemExit (ExitObject (ValueError msg)) in
  (List.length (sys_argv w) = 1%nat
   \/ exists parsed, (parse_args (Helpers:=reference_helpers) (sys_argv w)
                         (ArgsNamespace_init (helpers:=reference_helpers))).2 = Ret parsed)
  /\ ArgParser (helpers:=reference_helpers) 0 [] w = (o, printed (sys_argv w) msg)
  /\ (forall ns, o <> Ret ns)
  /\ process_status o = 1
  /\ process_status o <> 0
  /\ store (printed (sys_argv w) msg) = store w
  /\ stages_run (events (printed (sys_argv w) msg)) = stages_run (events w)
  /\ exists evs, events (printed (sys_argv w) msg) = (events w ++ evs)%list
                 /\ Forall (fun e => is_call e = false) evs.
Proof.
  intros w msg o.
  assert (List.length (sys_argv w) = 1%nat
          \/ exists parsed, (parse_args (Helpers:=reference_helpers) (sys_argv w)
                                (ArgsNamespace_init (helpers:=reference_helpers))).2
                             = Ret parsed) as Hargv.
  { right. eexists. reflexivity. }
  assert (ArgParser (helpers:=reference_helpers) 0 [] w
          = (o, printed (sys_argv w) msg)) as E.
  { vm_compute. reflexivity. }
  assert (forall ns, o <> Ret ns) as Hrej by (intros ns; discriminate).
  split; [exact Hargv|]. split; [exact E|]. split; [exact Hrej|].
  exact (rejection_exits_nonzero_before_any_stage (helpers:=reference_helpers)
           [] w _ _ Hargv E Hrej).
Defined.

(** C5 fails as stated: a rejected command line exits after printing the
    error text alone; no summary report is in the log. *)
Lemma rejection_emits_no_summary :
  let w := world_of_argv ["histdatacom"; "-s"; "2021-01"; "-e"; "2021-01"] in
  let msg := err_text_start_and_end_cannot_be_the_same (Some "202101") (Some "202101") in
  ArgParser (helpers:=reference_helpers) 0 [] w
  = (SystemExit (ExitObject (ValueError msg)), printed (sys_argv w) msg)
  /\ existsb is_summary (events (printed (sys_argv w) msg)) = false.
Proof. split; vm_compute; reflexivity. Qed.

Lemma rejection_writes_only_the_error_witness :
  let w := world_of_argv ["histdatacom"; "-e"; "2021-03"] in
  let o : outcome ArgsNamespace := Raise (UnboundLocalError "end_yearmonth") in
  (List.length (sys_argv w) = 1%nat
   \/ exists parsed, (parse_args (Helpers:=reference_helpers) (sys_argv w)
                         (ArgsNamespace_init (helpers:=reference_helpers))).2 = Ret parsed)
  /\ ArgParser (helpers:=reference_helpers) 0 [] w = (o, w)
  /\ (forall ns, o <> Ret ns)
  /\ exists written,
       (events w ++ interpreter_writes o = events w ++ written)%list
       /\ Forall (fun e => is_summary e = false) written
       /\ written = [Traceback (UnboundLocalError "end_yearmonth")].
Proof.
  intros w o.
  assert (List.length (sys_argv w) = 1%nat
          \/ exists parsed, (parse_args (Helpers:=reference_helpers) (sys_argv w)
                                (ArgsNamespace_init (helpers:=reference_helpers))).2
                             = Ret parsed) as Hargv.
  { right. eexists. reflexivity. }
  assert (ArgParser (helpers:=reference_helpers) 0 [] w = (o, w)) as E.
  { vm_compute. reflexivity. }
  assert (forall ns, o <> Ret ns) as Hrej by (intros ns; discriminate).
  split; [exact Hargv|]. split; [exact E|]. split; [exact Hrej|].
  exact (rejection_writes_only_the_error (helpers:=reference_helpers)
           [] w w o Hargv E Hrej).
Defined.

(** C6 fails as stated: January 2021 is accepted as the start of a range
    that ends in February 2021, and as the end of a range that starts in
    December 2020, yet the range from January 2021 to January 2021 is
    rejected. *)
Lemma single_month_range_is_rejected :
  let w := world_of_argv ["histdatacom"] in
  let ns := namespace_of (helpers:=reference_helpers) in
  let msg := err_text_start_and_end_cannot_be_the_same (Some "202101") (Some "202101") in
  check_datetime_input (helpers:=reference_helpers) (ns (Some "202101") (Some "202102")) w
  = (Ret (ns (Some "202101") (Some "202102")), w)
  /\ check_datetime_input (helpers:=reference_helpers) (ns (Some "202012") (Some "202101")) w
     = (Ret (ns (Some "202012") (Some "202101")), w)
  /\ check_datetime_input (helpers:=reference_helpers) (ns (Some "202101") (Some "202101")) w
     = (SystemExit (ExitObject (ValueError msg)), printed (sys_argv w) msg).
Proof. repeat split; vm_compute; reflexivity. Qed.

Lemma same_start_and_end_is_rejected_witness :
  let w := world_of_argv ["histdatacom"] in
  let ns := namespace_of (helpers:=reference_helpers) (Some "201507") (Some "201507") in
  "201507" <> "" /\ "201507" <> "now"
  /\ start_yearmonth ns = Some "201507" /\ end_yearmonth ns = Some "201507"
  /\ exists msg,
       check_datetime_input (helpers:=reference_helpers) ns w
       = (SystemExit (ExitObject (ValueError msg)),
          World (sys_argv w) (config_args w) (store w) (events w ++ [Print msg])).
Proof.
  intros w ns.
  assert ("201507" <> "") as H1 by discriminate.
  assert ("201507" <> "now") as H2 by discriminate.
  split; [exact H1|]. split; [exact H2|].
  split; [reflexivity|]. split; [reflexivity|].
  exact (same_start_and_end_is_rejected (helpers:=reference_helpers)
           ns "201507" w H1 H2 eq_refl eq_refl).
Defined.

Lemma end_without_start_raises_NameError_witness :
  let w := world_of_argv ["histdatacom"; "-e"; "2021-03"] in
  let ns := namespace_of (helpers:=reference_helpers) (Some "") (Some "202103") in
  ym_truthy (start_yearmonth ns) = false
  /\ ym_truthy (end_yearmonth ns) = true
  /\ check_for_now_in_yearmonth (helpers:=reference_helpers) ns w
     = (Raise (UnboundLocalError "end_yearmonth"), w)
  /\ check_datetime_input (helpers:=reference_helpers) ns w
     = (Raise (UnboundLocalError "end_yearmonth"), w)
  /\ is_NameError (UnboundLocalError "end_yearmonth") = true.
Proof.
  intros w ns.
  split; [reflexivity|]. split; [reflexivity|].
  exact (end_without_start_raises_NameError (helpers:=reference_helpers)
           ns w eq_refl eq_refl).
Defined.

(** ** Running the monad *)

(** Runs the monad on an explicit world, leaving dictionary lookups as
    they are. *)
Ltac run_goal :=
  cbv beta iota zeta
      delta [bind args_get args_set args_assign emit lift getitem getattr new call
             ret raise sys_argv config_args store events eq_one fst snd];
  rewrite <- ?app_assoc.

Ltac run_program H :=
  cbv beta iota zeta
      delta [bind args_get args_set args_assign emit lift getitem getattr new call
             ret raise sys_argv config_args store events eq_one] in H;
  rewrite <- ?app_assoc in H.

(** ** The constructor and the credentials *)

(** C7 at the command line [-I], with a credential file that holds the
    four settings.  The input gate, called as the comment above line 37
    has it ([ArgParser()]), accepts the command line with
    [import_to_influxdb] set: the load stage is enabled.  The constructor
    all the same ends at line 37 with [TypeError]: the credential file
    has not been read, [config.args] holds no setting, and no collaborator
    object, [_Influx] included, has been built. *)
Theorem constructor_reads_no_credentials :
  let w := world_of_argv ["histdatacom"; "-I"] in
  let r := HistDataCom_init (helpers:=reference_helpers) 1%nat 2%nat 3%nat tt w in
  (exists ns, ArgParser (helpers:=reference_helpers) 0 [] w = (Ret ns, w)
              /\ import_to_influxdb ns = true)
  /\ credentials (helpers:=reference_helpers)
  /\ (exists msg, r.1 = Raise (TypeError msg))
  /\ r.2 = w
  /\ config_args r.2 = ∅
  /\ events r.2 = [].
Proof.
  intros w r. split; [|split].
  - eexists. split; [vm_compute; reflexivity|reflexivity].
  - exists reference_influx_yaml,
      {[ "org" := VStr "acme"; "bucket" := VStr "fx";
         "url" := VStr "http://localhost:8086"; "token" := VStr "secret" ]}.
    split; [reflexivity|]. split; [vm_compute; reflexivity|].
    exists (VStr "acme"), (VStr "fx"), (VStr "http://localhost:8086"), (VStr "secret").
    repeat split; vm_compute; reflexivity.
  - repeat split. eexists. reflexivity.
Qed.

(** ** [run] *)

Section Run.
Context {Store Res : Type} {helpers : Helpers} {collaborators : Collaborators Store Res}.

Lemma flag_set_lookup (args : gmap string pyval) (key : string) (v : pyval) :
  args !! key = Some v -> flag_set args key = truthy v.
Proof. intros E. unfold flag_set. rewrite E. reflexivity. Qed.

Lemma call_run {A} c op refs (method : Store -> outcome A * Store)
  argv args st evs (a : A) st' :
  method st = (Ret a, st') ->
  call c op refs method (World argv args st evs)
  = (Ret a, World argv args st' (evs ++ [Call c op refs])).
Proof. intros E. run_goal. rewrite E. reflexivity. Qed.

Lemma validate_phase_run (self : HistDataCom) argv args st evs v :
  collaborators_return ->
  args !! "validate_urls" = Some v ->
  exists st',
    validate_phase self (World argv args st evs)
    = (Ret tt,
       World argv args st'
         (evs ++ if truthy v
                 then [Call URLs Op_validate_urls [records_current self; records_next self]]
                 else [])).
Proof.
  intros (_ & Hc & _) E. unfold validate_phase. run_goal. rewrite E.
  destruct (truthy v).
  - destruct (Hc (records_current self) (records_next self) st) as [st' E'].
    exists st'. run_goal. rewrite E'. reflexivity.
  - exists st. rewrite app_nil_r. reflexivity.
Qed.

Lemma extract_phase_run (self : HistDataCom) argv args st evs v :
  collaborators_return ->
  args !! "extract_csvs" = Some v ->
  exists st',
    extract_phase self (World argv args st evs)
    = (Ret tt,
       World argv args st'
         (evs ++ if truthy v
                 then [Call CSVs Op_extract_csvs [records_current self; records_next self]]
                 else [])).
Proof.
  intros (_ & _ & _ & _ & _ & Hc & _) E. unfold extract_phase. run_goal. rewrite E.
  destruct (truthy v).
  - destruct (Hc (records_current self) (records_next self) st) as [st' E'].
    exists st'. run_goal. rewrite E'. reflexivity.
  - exists st. rewrite app_nil_r. reflexivity.
Qed.

Lemma import_phase_run (self : HistDataCom) argv args st evs v :
  collaborators_return ->
  args !! "import_to_influxdb" = Some v ->
  (truthy v = true -> is_Some (influx self) /\ is_Some (csv_chunks_queue self)) ->
  exists st',
    import_phase self (World argv args st evs)
    = (Ret tt,
       World argv args st'
         (evs ++ if truthy v
                 then match csv_chunks_queue self with
                      | Some q => [Call Influx Op_import_data
                                     [records_current self; records_next self; q]]
                      | None => []
                      end
                 else [])).
Proof.
  intros (_ & _ & _ & _ & _ & _ & Hc) E Hself. unfold import_phase. run_goal. rewrite E.
  destruct (truthy v).
  - destruct (Hself eq_refl) as [[c Ec] [q Eq]]. rewrite Ec, Eq.
    destruct (Hc (records_current self) (records_next self) q st) as [st' E'].
    exists st'. run_goal. rewrite E'. reflexivity.
  - exists st. rewrite app_nil_r. reflexivity.
Qed.

Lemma download_phase_run (self : HistDataCom) argv args st evs d f :
  collaborators_return ->
  args !! "download_data_archives" = Some d ->
  args !! "from_api" = Some f ->
  exists returned st',
    download_phase self (World argv args st evs)
    = (Ret returned,
       World argv args st'
         (evs
          ++ (if truthy d
              then [Call URLs Op_download_zips [records_current self; records_next self]]
              else [])
          ++ (if truthy d && truthy f
              then [Call API Op_validate_jays [records_current self; records_next self];
                    Call API Op_merge_jays [records_current self]]
              else [])))
    /\ (is_Some returned <-> truthy d && truthy f = true)
    /\ (forall r, returned = Some r ->
          exists s s', api_merge_jays (records_current self) s = (Ret r, s')).
Proof.
  intros (_ & _ & Hd & Hv & Hm & _) Ed Ef. unfold download_phase. run_goal. rewrite Ed.
  destruct (truthy d); simpl andb.
  - destruct (Hd (records_current self) (records_next self) st) as [st1 E1].
    rewrite E1. run_goal. rewrite Ef.
    destruct (truthy f).
    + destruct (Hv (records_current self) (records_next self) st1) as [st2 E2].
      rewrite E2. run_goal.
      destruct (Hm (records_current self) st2) as (r & st3 & E3).
      rewrite E3. exists (Some r), st3. split; [reflexivity|].
      split; [split; [reflexivity|intros _; eexists; reflexivity]|].
      intros r' [= <-]. exists st2, st3. exact E3.
    + exists None, st1. split; [rewrite app_nil_r; reflexivity|].
      split; [split; [intros [? ?]; discriminate|discriminate]|discriminate].
  - exists None, st. split; [rewrite !app_nil_r; reflexivity|].
    split; [split; [intros [? ?]; discriminate|discriminate]|discriminate].
Qed.

Lemma download_phase_off (self : HistDataCom) (w : world Store) d :
  config_args w !! "download_data_archives" = Some d ->
  truthy d = false ->
  download_phase (Res:=Res) self w = (Ret None, w).
Proof.
  destruct w as [argv args st evs]. cbv beta iota delta [config_args].
  intros Ed Hd. unfold download_phase. run_goal. rewrite Ed, Hd. reflexivity.
Qed.

Lemma extract_import_run (self : HistDataCom) argv args st evs x i :
  collaborators_return ->
  args !! "extract_csvs" = Some x ->
  args !! "import_to_influxdb" = Some i ->
  (truthy i = true -> is_Some (influx self) /\ is_Some (csv_chunks_queue self)) ->
  exists st',
    (extract_phase self ;;; import_phase self ;;; ret (None : option Res))
      (World argv args st evs)
    = (Ret None,
       World argv args st'
         (evs
          ++ (if truthy x
              then [Call CSVs Op_extract_csvs [records_current self; records_next self]]
              else [])
          ++ (if truthy i
              then match csv_chunks_queue self with
                   | Some q => [Call Influx Op_import_data
                                  [records_current self; records_next self; q]]
                   | None => []
                   end
              else []))).
Proof.
  intros Hc Ex Ei Hself.
  destruct (extract_phase_run self argv args st evs x Hc Ex) as [st3 E3].
  rewrite (bind_Ret _ _ _ _ _ E3).
  match type of E3 with _ = (_, World _ _ _ ?evs3) =>
    destruct (import_phase_run self argv args st3 evs3 i Hc Ei Hself) as [st4 E4]
  end.
  rewrite (bind_Ret _ _ _ _ _ E4).
  exists st4. rewrite <- !app_assoc. reflexivity.
Qed.

(** C1, as the code has it.  Take collaborators that return and a state
    in which [run] finds what it reads on its way: [validate_urls] and
    [download_data_archives] in [config.args]; [from_api] when
    [download_data_archives] is set; [extract_csvs] and
    [import_to_influxdb] unless [download_data_archives] and [from_api]
    are both set; and then, when [import_to_influxdb] is set, the
    attributes [influx] and [csv_chunks_queue] of the object.  Then [run]
    returns and its calls are, in this order: [populate_initial_queue];
    [validate_urls] iff its flag is set; [download_zips] iff
    [download_data_archives] is set; then, when [download_data_archives]
    and [from_api] are both set, [validate_jays] and [merge_jays], after
    which [run] returns the merged result; otherwise [extract_csvs] iff
    its flag is set and [import_data] iff [import_to_influxdb] is set.
    No call depends on [clean_data]. *)
Theorem run_makes_expected_calls (self : HistDataCom) (w : world Store) :
  let args := config_args w in
  collaborators_return ->
  is_Some (args !! "validate_urls") ->
  is_Some (args !! "download_data_archives") ->
  (flag_set args "download_data_archives" = true -> is_Some (args !! "from_api")) ->
  (flag_set args "download_data_archives" && flag_set args "from_api" = false ->
   is_Some (args !! "extract_csvs")
   /\ is_Some (args !! "import_to_influxdb")
   /\ (flag_set args "import_to_influxdb" = true ->
       is_Some (influx self) /\ is_Some (csv_chunks_queue self))) ->
  (exists returned w',
     run self w = (Ret returned, w')
     /\ events w' = (events w ++ expected_calls self args)%list
     /\ config_args w' = args
     /\ (is_Some returned <->
         flag_set args "download_data_archives" && flag_set args "from_api" = true)
     /\ (forall r, returned = Some r ->
           exists s s', api_merge_jays (records_current self) s = (Ret r, s')))
  /\ forall clean,
       expected_calls self (<["clean_data" := clean]> args) = expected_calls self args.
Proof.
  destruct w as [argv args st evs]. cbv beta iota zeta delta [config_args events].
  intros Hc [v Ev] [d Ed] Hfrom Hrest.
  split.
  2:{ intros clean. unfold expected_calls, flag_set.
      rewrite !lookup_insert_ne by discriminate. reflexivity. }
  unfold expected_calls.
  rewrite (flag_set_lookup _ _ _ Ed) in Hfrom, Hrest.
  rewrite (flag_set_lookup _ _ _ Ev), !(flag_set_lookup _ _ _ Ed).
  pose proof Hc as (Hp & _).
  destruct (Hp (records_current self) (records_next self) st) as [st0 E0].
  unfold run.
  rewrite (bind_Ret _ _ _ _ _ (call_run _ _ _ _ argv args st evs tt st0 E0)).
  destruct (validate_phase_run self argv args st0
              (evs ++ [Call URLs Op_populate_initial_queue
                         [records_current self; records_next self]]) v Hc Ev)
    as [st1 E1].
  rewrite (bind_Ret _ _ _ _ _ E1).
  destruct (truthy d) eqn:Hd; cbn [andb] in *.
  - destruct (Hfrom eq_refl) as [f Ef].
    rewrite (flag_set_lookup _ _ _ Ef) in Hrest |- *.
    match type of E1 with _ = (_, World _ _ _ ?evs1) =>
      destruct (download_phase_run self argv args st1 evs1 d f Hc Ed Ef)
        as (returned & st2 & E2 & Hret & Hmerged)
    end.
    rewrite Hd in E2, Hret. cbn [andb] in E2, Hret.
    rewrite (bind_Ret _ _ _ _ _ E2).
    destruct returned as [r|].
    + assert (truthy f = true) as Hf by (apply Hret; eexists; reflexivity).
      rewrite Hf. eexists _, _. split; [reflexivity|].
      cbv beta iota delta [events config_args].
      split; [rewrite <- !app_assoc; reflexivity|]. split; [reflexivity|].
      split; [split; [reflexivity|intros _; eexists; reflexivity]|exact Hmerged].
    + assert (truthy f = false) as Hf.
      { destruct (truthy f); [|reflexivity].
        destruct (proj2 Hret eq_refl). discriminate. }
      rewrite Hf in *.
      destruct (Hrest eq_refl) as ([x Ex] & [i Ei] & Hself).
      rewrite (flag_set_lookup _ _ _ Ei) in Hself.
      rewrite (flag_set_lookup _ _ _ Ex), (flag_set_lookup _ _ _ Ei).
      match type of E2 with _ = (_, World _ _ _ ?evs2) =>
        destruct (extract_import_run self argv args st2 evs2 x i Hc Ex Ei Hself)
          as [st4 E4]
      end.
      rewrite E4. eexists _, _. split; [reflexivity|].
      cbv beta iota delta [events config_args].
      split; [rewrite <- !app_assoc; reflexivity|]. split; [reflexivity|].
      split; [split; [intros [? ?]; discriminate|discriminate]|discriminate].
  - match type of E1 with _ = (_, ?w1) =>
      rewrite (bind_Ret _ _ _ _ _ (download_phase_off self w1 d Ed Hd))
    end.
    destruct (Hrest eq_refl) as ([x Ex] & [i Ei] & Hself).
    rewrite (flag_set_lookup _ _ _ Ei) in Hself.
    rewrite (flag_set_lookup _ _ _ Ex), (flag_set_lookup _ _ _ Ei).
    match type of E1 with _ = (_, World _ _ _ ?evs1) =>
      destruct (extract_import_run self argv args st1 evs1 x i Hc Ex Ei Hself)
        as [st4 E4]
    end.
    rewrite E4. eexists _, _. split; [reflexivity|].
    cbv beta iota delta [events config_args].
    split; [rewrite <- !app_assoc; reflexivity|]. split; [reflexivity|].
    split; [split; [intros [? ?]; discriminate|discriminate]|discriminate].
Qed.

End Run.

(** ** Disabled stages *)

Section Disabled.
Context {Store Res : Type} {helpers : Helpers} {collaborators : Collaborators Store Res}.

Lemma keeps_args_ret {A} (a : A) : keeps_args (ret (Store:=Store) a).
Proof. intros w. reflexivity. Qed.

Lemma keeps_args_raise {A} (e : exn) : keeps_args (raise (Store:=Store) (A:=A) e).
Proof. intros w. reflexivity. Qed.

Lemma keeps_args_args_get (key : string) : keeps_args (args_get (Store:=Store) key).
Proof. intros w. unfold args_get. destruct (config_args w !! key); reflexivity. Qed.

Lemma keeps_args_getattr {V} (name : string) (slot : option V) :
  keeps_args (getattr (Store:=Store) name slot).
Proof. destruct slot; [apply keeps_args_ret|apply keeps_args_raise]. Qed.

Lemma keeps_args_bind {A B} (m : M Store A) (k : A -> M Store B) :
  keeps_args m -> (forall a, keeps_args (k a)) -> keeps_args (bind m k).
Proof.
  intros Hm Hk w. unfold bind. specialize (Hm w).
  destruct (m w) as [[a|e|x] w1]; simpl in Hm; try exact Hm.
  rewrite <- Hm. apply Hk.
Qed.

Lemma keeps_args_call {A} c op refs (method : Store -> outcome A * Store) :
  keeps_args (call c op refs method).
Proof.
  intros [argv args st evs]. run_goal.
  destruct (method st) as [[a|e|x] st']; reflexivity.
Qed.

Ltac keeps_args_tac :=
  repeat first
    [ apply keeps_args_ret
    | apply keeps_args_raise
    | apply keeps_args_args_get
    | apply keeps_args_getattr
    | apply keeps_args_call
    | apply keeps_args_bind; [|intros ?]
    | match goal with
      | |- keeps_args (if ?b then _ else _) => destruct b
      | |- keeps_args (match ?x with _ => _ end) => destruct x
      end ].

Lemma call_config_args {A} c op refs (method : Store -> outcome A * Store)
  (w : world Store) :
  config_args (call c op refs method w).2 = config_args w.
Proof. apply keeps_args_call. Qed.

Lemma phase_config_args (s : stage) (self : HistDataCom) (w : world Store) :
  config_args (phase (Res:=Res) s self w).2 = config_args w.
Proof.
  revert w. change (keeps_args (phase (Res:=Res) s self)).
  destruct s; unfold phase, validate_phase, download_phase, extract_phase, import_phase;
    keeps_args_tac.
Qed.

Lemma phase_disabled (s : stage) (self : HistDataCom) (w : world Store) (v : pyval) :
  config_args w !! stage_flag s = Some v ->
  truthy v = false ->
  phase (Res:=Res) s self w = (Ret None, w).
Proof.
  destruct w as [argv args st evs]. cbv beta iota delta [config_args].
  intros E Hv.
  destruct s; unfold phase, validate_phase, download_phase, extract_phase, import_phase;
    unfold stage_flag in E; run_goal; rewrite ?E, ?Hv; reflexivity.
Qed.

Lemma run_stages_without (s : stage) (self : HistDataCom) (v : pyval)
  (stages : list stage) :
  truthy v = false ->
  forall w : world Store,
    config_args w !! stage_flag s = Some v ->
    run_stages (Res:=Res) stages self w = run_stages (without s stages) self w.
Proof.
  intros Hv. induction stages as [|t stages IH]; intros w E; [reflexivity|].
  unfold without. simpl List.filter.
  destruct (stage_eqb t s) eqn:Hts; simpl negb; cbv iota.
  - assert (t = s) as -> by (destruct t, s; (reflexivity || discriminate)).
    simpl run_stages. rewrite (bind_Ret _ _ _ _ _ (phase_disabled s self w v E Hv)).
    apply IH. exact E.
  - simpl run_stages. unfold bind.
    pose proof (phase_config_args t self w) as Hargs.
    destruct (phase t self w) as [[[r|]|e|x] w1]; try reflexivity.
    apply IH. simpl in Hargs. rewrite Hargs. exact E.
Qed.

(** [run] is [populate_initial_queue] followed by the five stages in
    their order. *)
Lemma run_by_stages (self : HistDataCom) (w : world Store) :
  run (Res:=Res) self w
  = (call URLs Op_populate_initial_queue [records_current self; records_next self]
       (urls_populate_initial_queue (records_current self) (records_next self)) ;;;
     run_stages stage_order self) w.
Proof.
  unfold run, stage_order, run_stages, phase, bind, ret.
  destruct (call _ _ _ _ w) as [[[]|e|x] w1]; try reflexivity.
  destruct (validate_phase self w1) as [[[]|e|x] w2]; try reflexivity.
  destruct (download_phase self w2) as [[[r|]|e|x] w3]; try reflexivity.
  destruct (extract_phase self w3) as [[[]|e|x] w4]; try reflexivity.
  destruct (import_phase self w4) as [[[]|e|x] w5]; reflexivity.
Qed.

(** C3. A stage whose flag is present and falsy is an identity
    transform: its statements return without a value and leave the whole
    state (the contents of the record queues, [config.args], the log) as
    it entered; running any list of stages is running the list without
    that stage, and so is [run]. *)
Theorem disabled_stage_is_identity (s : stage) (self : HistDataCom) (w : world Store)
  (v : pyval) :
  config_args w !! stage_flag s = Some v ->
  truthy v = false ->
  phase (Res:=Res) s self w = (Ret None, w)
  /\ (forall stages,
        run_stages (Res:=Res) stages self w = run_stages (without s stages) self w)
  /\ run (Res:=Res) self w
     = (call URLs Op_populate_initial_queue [records_current self; records_next self]
          (urls_populate_initial_queue (records_current self) (records_next self)) ;;;
        run_stages (without s stage_order) self) w.
Proof.
  intros E Hv. split; [exact (phase_disabled s self w v E Hv)|].
  split; [intros stages; exact (run_stages_without s self v stages Hv w E)|].
  rewrite run_by_stages. unfold bind.
  pose proof (call_config_args URLs Op_populate_initial_queue
                [records_current self; records_next self]
                (urls_populate_initial_queue (records_current self) (records_next self)) w)
    as Hargs.
  destruct (call _ _ _ _ w) as [[[]|e|x] w1]; try reflexivity.
  apply (run_stages_without s self v stage_order Hv). simpl in Hargs.
  rewrite Hargs. exact E.
Qed.

End Disabled.

(** ** Concrete runs of the orchestrator *)

Lemma reference_collaborators_return :
  collaborators_return (collaborators:=reference_collaborators).
Proof. repeat split; intros; eexists; try eexists; reflexivity. Qed.

(** C1 fails as stated.  With only [clean_data] set, [run] returns after
    [populate_initial_queue]: no call works for the clean stage.  With
    [validate_urls], [download_data_archives], [extract_csvs],
    [import_to_influxdb] and [from_api] set, [run] returns from the
    download stage: extract and load are enabled and are not run. *)
Lemma run_omits_enabled_stages :
  (let args := args_of_flags false false false true false false in
   let r := run (collaborators:=reference_collaborators) (reference_self false)
              (world_of_args args) in
   r.1 = Ret None
   /\ events r.2 = [Call URLs Op_populate_initial_queue [1%nat; 2%nat]]
   /\ stages_run (events r.2) = []
   /\ enabled_stages args = [Clean])
  /\ (let args := args_of_flags true true true false true true in
      let r := run (collaborators:=reference_collaborators) (reference_self true)
                 (world_of_args args) in
      r.1 = Ret (Some ["populated"; "validated"; "downloaded"; "jays validated"])
      /\ stages_run (events r.2) = [Validate; Download]
      /\ enabled_stages args = [Validate; Download; Extract; Load]).
Proof. repeat split; vm_compute; reflexivity. Qed.

Lemma run_makes_expected_calls_witness :
  let args := with_directories (helpers:=reference_helpers)
                (_arg_list_to_set (vars import_namespace)) (VStr "data") in
  let w := World ["histdatacom"; "-X"; "-I"] args [] [] in
  let self := reference_self true in
  ArgParser (helpers:=reference_helpers) 0 [] (world_of_argv ["histdatacom"; "-X"; "-I"])
  = (Ret import_namespace, world_of_argv ["histdatacom"; "-X"; "-I"])
  /\ collaborators_return (collaborators:=reference_collaborators)
  /\ is_Some (args !! "validate_urls")
  /\ is_Some (args !! "download_data_archives")
  /\ (flag_set args "download_data_archives" = true -> is_Some (args !! "from_api"))
  /\ (flag_set args "download_data_archives" && flag_set args "from_api" = false ->
      is_Some (args !! "extract_csvs")
      /\ is_Some (args !! "import_to_influxdb")
      /\ (flag_set args "import_to_influxdb" = true ->
          is_Some (influx self) /\ is_Some (csv_chunks_queue self)))
  /\ args !! "from_api" = None
  /\ expected_calls self args
     = [Call URLs Op_populate_initial_queue [1%nat; 2%nat];
        Call URLs Op_validate_urls [1%nat; 2%nat];
        Call CSVs Op_extract_csvs [1%nat; 2%nat];
        Call Influx Op_import_data [1%nat; 2%nat; 3%nat]]
  /\ (exists returned w',
        run (collaborators:=reference_collaborators) self w = (Ret returned, w')
        /\ events w' = (events w ++ expected_calls self args)%list
        /\ config_args w' = args
        /\ (is_Some returned <->
            flag_set args "download_data_archives" && flag_set args "from_api" = true)
        /\ (forall r, returned = Some r ->
              exists s s', api_merge_jays (Collaborators:=reference_collaborators)
                             (records_current self) s = (Ret r, s')))
  /\ forall clean,
       expected_calls self (<["clean_data" := clean]> args) = expected_calls self args.
Proof.
  intros args w self.
  assert (is_Some (args !! "validate_urls")) as Hv
    by (eexists; vm_compute; reflexivity).
  assert (is_Some (args !! "download_data_archives")) as Hd
    by (eexists; vm_compute; reflexivity).
  assert (flag_set args "download_data_archives" = true -> is_Some (args !! "from_api"))
    as Hfrom by (vm_compute; discriminate).
  assert (flag_set args "download_data_archives" && flag_set args "from_api" = false ->
          is_Some (args !! "extract_csvs")
          /\ is_Some (args !! "import_to_influxdb")
          /\ (flag_set args "import_to_influxdb" = true ->
              is_Some (influx self) /\ is_Some (csv_chunks_queue self))) as Hrest.
  { intros _. split; [eexists; vm_compute; reflexivity|].
    split; [eexists; vm_compute; reflexivity|].
    intros _. split; eexists; reflexivity. }
  split; [vm_compute; reflexivity|].
  split; [exact reference_collaborators_return|].
  split; [exact Hv|]. split; [exact Hd|]. split; [exact Hfrom|]. split; [exact Hrest|].
  split; [vm_compute; reflexivity|]. split; [vm_compute; reflexivity|].
  exact (run_makes_expected_calls (collaborators:=reference_collaborators)
           self w reference_collaborators_return Hv Hd Hfrom Hrest).
Defined.

Lemma disabled_stage_is_identity_witness :
  let args := args_of_flags true true false false true false in
  let w := world_of_args args in
  let self := reference_self true in
  config_args w !! stage_flag Extract = Some (VBool false)
  /\ truthy (VBool false) = false
  /\ phase (collaborators:=reference_collaborators) Extract self w = (Ret None, w)
  /\ (forall stages,
        run_stages (collaborators:=reference_collaborators) stages self w
        = run_stages (collaborators:=reference_collaborators) (without Extract stages) self w)
  /\ run (collaborators:=reference_collaborators) self w
     = (call URLs Op_populate_initial_queue [records_current self; records_next self]
          (urls_populate_initial_queue (Collaborators:=reference_collaborators)
             (records_current self) (records_next self)) ;;;
        run_stages (collaborators:=reference_collaborators)
          (without Extract stage_order) self) w.
Proof.
  intros args w self.
  assert (config_args w !! stage_flag Extract = Some (VBool false)) as E
    by (vm_compute; reflexivity).
  split; [exact E|]. split; [reflexivity|].
  exact (disabled_stage_is_identity (collaborators:=reference_collaborators)
           Extract self w (VBool false) E eq_refl).
Defined.

(** * Further properties of the input gate *)

Section GateBehaviour.
Context {Store : Type} {helpers : Helpers}.

Lemma set_yearmonths_twice (ns : ArgsNamespace) (p q : yearmonth * yearmonth) :
  set_yearmonths (set_yearmonths ns p) q = set_yearmonths ns q.
Proof. reflexivity. Qed.

Lemma start_set_yearmonths (ns : ArgsNamespace) (p : yearmonth * yearmonth) :
  start_yearmonth (set_yearmonths ns p) = fst p.
Proof. reflexivity. Qed.

Lemma end_set_yearmonths (ns : ArgsNamespace) (p : yearmonth * yearmonth) :
  end_yearmonth (set_yearmonths ns p) = snd p.
Proof. reflexivity. Qed.

Lemma bind_Ret_inv {A B} (m : M Store A) (k : A -> M Store B) w b w' :
  bind m k w = (Ret b, w') ->
  exists a w1, m w = (Ret a, w1) /\ k a w1 = (Ret b, w').
Proof.
  unfold bind. destruct (m w) as [[a|e|x] w1]; intros E; try discriminate.
  exists a, w1. split; [reflexivity|exact E].
Qed.

Lemma bind_ext_l {A B} (m m' : M Store A) (k : A -> M Store B) w :
  m w = m' w -> bind m k w = bind m' k w.
Proof. intros E. unfold bind. rewrite E. reflexivity. Qed.

(** X1. Without a start and without an end year-month (each [None] or the
    empty string) [check_datetime_input] accepts: nothing is printed and
    both attributes come back as [None]. *)
Theorem no_range_is_accepted (ns : ArgsNamespace) (w : world Store) :
  ym_truthy (start_yearmonth ns) = false ->
  ym_truthy (end_yearmonth ns) = false ->
  check_datetime_input ns w = (Ret (set_yearmonths ns (None, None)), w).
Proof.
  intros Hs He. unfold check_datetime_input. rewrite Hs, He. simpl orb. cbv iota.
  unfold bind at 1. unfold ret at 1. cbv beta iota zeta.
  unfold replace_falsey_yearmonth_with_none. cbv zeta. rewrite Hs, He. simpl negb.
  simpl orb. cbv iota.
  reflexivity.
Qed.

(** X2. When the start is the keyword [now], the end the user gave is
    dropped: the outcome of [check_datetime_input] is the same whatever
    the end year-month is. *)
Theorem now_as_start_ignores_end (ns : ArgsNamespace) (e : yearmonth) (w : world Store) :
  start_yearmonth ns = Some "now" ->
  check_datetime_input (set_yearmonths ns (Some "now", e)) w
  = check_datetime_input ns w.
Proof.
  intros Hs.
  assert (forall ns0, start_yearmonth ns0 = Some "now" ->
            check_for_start_in_yearmonth ns0 w
            = (Ret (Some "now", end_yearmonth ns0), w)) as E1.
  { intros ns0 H0. unfold check_for_start_in_yearmonth, try_except_ValueError.
    cbv zeta. rewrite H0. reflexivity. }
  assert (forall ns0, start_yearmonth ns0 = Some "now" ->
            check_for_now_in_yearmonth ns0 w
            = (Ret (Some get_current_datemonth_gmt_plus5, None), w)) as E2.
  { intros ns0 H0. unfold check_for_now_in_yearmonth. cbv zeta. rewrite H0. reflexivity. }
  unfold check_datetime_input. simpl start_yearmonth. simpl fst. rewrite Hs.
  simpl ym_truthy. simpl orb. cbv iota.
  apply bind_ext_l.
  rewrite (bind_Ret _ _ _ _ _ (E1 (set_yearmonths ns (Some "now", e)) eq_refl)).
  rewrite (bind_Ret _ _ _ _ _ (E1 ns Hs)). cbv beta zeta.
  rewrite (bind_Ret _ _ _ _ _
             (E2 (set_yearmonths (set_yearmonths ns (Some "now", e))
                    (Some "now", snd (Some "now", e))) eq_refl)).
  rewrite (bind_Ret _ _ _ _ _
             (E2 (set_yearmonths ns (Some "now", end_yearmonth ns)) eq_refl)).
  reflexivity.
Qed.

(** X3. The keyword [start] as start year-month needs an end that is
    not itself [start]: without an end, and with the end [start], the
    configuration is rejected with the text written for that case. *)
Theorem start_keyword_needs_an_end (ns : ArgsNamespace) (w : world Store) :
  start_yearmonth ns = Some "start" ->
  (ym_truthy (end_yearmonth ns) = false ->
   check_datetime_input ns w = rejected_with err_text_start_must_have_end w)
  /\ (end_yearmonth ns = Some "start" ->
      check_datetime_input ns w
      = rejected_with err_text_end_yearmonth_cannot_be_start w).
Proof.
  intros Hs. split; intros He.
  - unfold check_datetime_input. rewrite Hs. simpl ym_truthy. simpl orb. cbv iota.
    apply bind_SystemExit, bind_SystemExit.
    unfold check_for_start_in_yearmonth, try_except_ValueError. cbv zeta.
    rewrite Hs, He. reflexivity.
  - unfold check_datetime_input. rewrite Hs. simpl ym_truthy. simpl orb. cbv iota.
    apply bind_SystemExit, bind_SystemExit.
    unfold check_for_start_in_yearmonth, try_except_ValueError. cbv zeta.
    rewrite Hs, He. reflexivity.
Qed.

(** X4. With an end that is truthy and is not [start], the keyword
    [start] stands for January 2000: the configuration fares exactly as
    the one whose start is [200001]. *)
Theorem start_keyword_is_200001 (ns : ArgsNamespace) (w : world Store) :
  start_yearmonth ns = Some "start" ->
  ym_truthy (end_yearmonth ns) = true ->
  ym_eq (end_yearmonth ns) "start" = false ->
  check_datetime_input ns w
  = check_datetime_input (set_yearmonths ns (Some "200001", end_yearmonth ns)) w.
Proof.
  intros Hs He Hne.
  unfold check_datetime_input. simpl start_yearmonth. simpl end_yearmonth.
  simpl fst. simpl snd. rewrite Hs, He. simpl ym_truthy. simpl orb. cbv iota.
  apply bind_ext_l.
  assert (check_for_start_in_yearmonth ns w
          = (Ret (Some "200001", end_yearmonth ns), w)) as E1.
  { unfold check_for_start_in_yearmonth, try_except_ValueError. cbv zeta.
    rewrite Hs, He, Hne. reflexivity. }
  assert (check_for_start_in_yearmonth
            (set_yearmonths ns (Some "200001", end_yearmonth ns)) w
          = (Ret (Some "200001", end_yearmonth ns), w)) as E1'.
  { reflexivity. }
  rewrite (bind_Ret _ _ _ _ _ E1), (bind_Ret _ _ _ _ _ E1'). reflexivity.
Qed.

(** X5. With a start that is truthy and is neither keyword, the keyword
    [now] as end stands for the current year-month (whenever that is not
    itself the string [now]): the configuration fares exactly as the one
    whose end is the current year-month. *)
Theorem now_as_end_is_current_month (ns : ArgsNamespace) (w : world Store) :
  ym_truthy (start_yearmonth ns) = true ->
  ym_eq (start_yearmonth ns) "start" = false ->
  ym_eq (start_yearmonth ns) "now" = false ->
  end_yearmonth ns = Some "now" ->
  get_current_datemonth_gmt_plus5 <> "now" ->
  check_datetime_input ns w
  = check_datetime_input
      (set_yearmonths ns (start_yearmonth ns, Some get_current_datemonth_gmt_plus5)) w.
Proof.
  intros Hs Hst Hnow He Hcur.
  apply String.eqb_neq in Hcur.
  unfold check_datetime_input. rewrite !start_set_yearmonths. cbv beta iota delta [fst snd]. rewrite Hs.
  simpl orb. cbv iota.
  apply bind_ext_l.
  assert (forall e, check_for_start_in_yearmonth (set_yearmonths ns (start_yearmonth ns, e)) w
                    = (Ret (start_yearmonth ns, e), w)) as E1.
  { intros e. unfold check_for_start_in_yearmonth, try_except_ValueError. cbv zeta.
    rewrite ?start_set_yearmonths, ?end_set_yearmonths. cbv beta iota delta [fst snd].
    rewrite Hs, Hst. reflexivity. }
  assert (check_for_now_in_yearmonth (set_yearmonths ns (start_yearmonth ns, Some "now")) w
          = (Ret (start_yearmonth ns, Some get_current_datemonth_gmt_plus5), w)) as E2.
  { unfold check_for_now_in_yearmonth. cbv zeta.
    rewrite ?start_set_yearmonths, ?end_set_yearmonths. cbv beta iota delta [fst snd].
    rewrite Hs, Hnow. reflexivity. }
  assert (check_for_now_in_yearmonth
            (set_yearmonths ns (start_yearmonth ns, Some get_current_datemonth_gmt_plus5)) w
          = (Ret (start_yearmonth ns, Some get_current_datemonth_gmt_plus5), w)) as E2'.
  { unfold check_for_now_in_yearmonth. cbv zeta.
    rewrite ?start_set_yearmonths, ?end_set_yearmonths. cbv beta iota delta [fst snd].
    rewrite Hs, Hnow. unfold ym_eq. rewrite Hcur, andb_false_r. reflexivity. }
  rewrite <- (set_yearmonths_same ns _ _ eq_refl He) at 1.
  rewrite (bind_Ret _ _ _ _ _ (E1 (Some "now"))).
  rewrite (bind_Ret _ _ _ _ _ (E1 (Some get_current_datemonth_gmt_plus5))).
  cbv beta zeta. rewrite !set_yearmonths_twice.
  rewrite (bind_Ret _ _ _ _ _ E2), (bind_Ret _ _ _ _ _ E2'). reflexivity.
Qed.

End GateBehaviour.

(** ** What an accepted configuration satisfies *)

Section Accepted.
Context {Store : Type} {helpers : Helpers}.

Lemma gate_result_Ret {A} (w : world Store) (a : A) (w' : world Store) :
  gate_result w (Ret a, w') -> w' = w.
Proof.
  intros [(H1 & H2 & H3) H4]. simpl in *.
  destruct w, w'. simpl in *. congruence.
Qed.

Lemma try_Ret_inv {A} (body : M Store A) (handler : exn -> M Store A) w a w' :
  (forall e w0 b w1, handler e w0 <> (Ret b, w1)) ->
  try_except_ValueError body handler w = (Ret a, w') ->
  body w = (Ret a, w').
Proof.
  intros Hh. unfold try_except_ValueError.
  destruct (body w) as [[b|[]|x] w1]; intros E; try discriminate; try exact E.
  destruct (Hh _ _ _ _ E).
Qed.

Lemma exit_on_datetime_error_not_Ret {A} e (w0 : world Store) (b : A) w1 :
  exit_on_datetime_error e w0 <> (Ret b, w1).
Proof. discriminate. Qed.

Lemma check_yearmonth_in_range_Ret flag gap (v : yearmonth) (w w' : world Store) :
  check_yearmonth_in_range flag gap v w = (Ret tt, w') ->
  ym_truthy v = true ->
  exists n now,
    py_int (ym_format v) = Ret n
    /\ py_int get_current_datemonth_gmt_plus5 = Ret now
    /\ 200000 <= n /\ n <= now.
Proof.
  intros E Hv. unfold check_yearmonth_in_range in E.
  apply try_Ret_inv in E; [|intros; apply exit_on_datetime_error_not_Ret].
  rewrite Hv in E. unfold bind, lift in E.
  destruct (py_int (ym_format v)) as [n| |]; try discriminate.
  destruct (n <? 200000) eqn:Hlo; [discriminate|].
  destruct (py_int get_current_datemonth_gmt_plus5) as [now| |]; try discriminate.
  destruct (now <? n) eqn:Hhi; [discriminate|].
  exists n, now. repeat split; lia.
Qed.

Lemma check_start_lessthan_end_Ret (ns : ArgsNamespace) (w w' : world Store) :
  check_start_lessthan_end ns w = (Ret tt, w') ->
  ym_truthy (start_yearmonth ns) = true ->
  ym_truthy (end_yearmonth ns) = true ->
  exists a b,
    py_int (ym_format (start_yearmonth ns)) = Ret a
    /\ py_int (ym_format (end_yearmonth ns)) = Ret b
    /\ a <= b.
Proof.
  intros E Hs He. unfold check_start_lessthan_end in E.
  apply try_Ret_inv in E; [|intros; apply exit_on_datetime_error_not_Ret].
  cbv zeta in E. rewrite Hs, He in E. unfold bind, lift in E. simpl andb in E.
  cbv iota in E.
  destruct (py_int (ym_format (start_yearmonth ns))) as [a| |]; try discriminate.
  destruct (py_int (ym_format (end_yearmonth ns))) as [b| |]; try discriminate.
  destruct (b <? a) eqn:Hlt; [discriminate|].
  exists a, b. repeat split; lia.
Qed.

Lemma check_for_now_in_yearmonth_Ret (ns : ArgsNamespace) (w w' : world Store) p :
  check_for_now_in_yearmonth ns w = (Ret p, w') ->
  ym_truthy (start_yearmonth ns) = true
  /\ (snd p = None \/ fst p = start_yearmonth ns).
Proof.
  unfold check_for_now_in_yearmonth. cbv zeta.
  destruct (ym_truthy (start_yearmonth ns)); [|discriminate].
  destruct (ym_eq (start_yearmonth ns) "now").
  - intros E. inversion E. split; [reflexivity|left; reflexivity].
  - destruct (ym_truthy (end_yearmonth ns) && ym_eq (end_yearmonth ns) "now");
      intros E; inversion E; split; try reflexivity; right; reflexivity.
Qed.

Lemma check_cli_start_yearmonth_Ret (ns : ArgsNamespace) (w w' : world Store) p :
  check_cli_start_yearmonth ns w = (Ret p, w') ->
  p = (Some (get_year_from_datemonth (start_yearmonth ns) ++ "00"), None)
  \/ p = (start_yearmonth ns, end_yearmonth ns).
Proof.
  intros E.
  destruct (check_cli_start_yearmonth_cases ns w) as [[msg E']|[[_ E']|E']];
    rewrite E' in E.
  - discriminate.
  - left. inversion E. reflexivity.
  - right. inversion E. reflexivity.
Qed.

Lemma nonempty_truthy (s : string) : s <> "" -> ym_truthy (Some s) = true.
Proof. intros H. simpl. apply negb_true_iff, String.eqb_neq. exact H. Qed.

(** X6. Whatever [check_datetime_input] accepts is in order.  Nothing is
    printed and the other attributes are untouched; neither year-month is
    the empty string; an end comes with a start; each year-month that is
    present reads as an integer between 200000 and the current
    year-month; and the start is not after the end. *)
Theorem accepted_configuration_is_in_range
  (ns ns' : ArgsNamespace) (w w' : world Store) :
  check_datetime_input ns w = (Ret ns', w') ->
  w' = w
  /\ ns' = set_yearmonths ns (start_yearmonth ns', end_yearmonth ns')
  /\ start_yearmonth ns' <> Some "" /\ end_yearmonth ns' <> Some ""
  /\ (forall e, end_yearmonth ns' = Some e -> exists s, start_yearmonth ns' = Some s)
  /\ (forall v, start_yearmonth ns' = Some v \/ end_yearmonth ns' = Some v ->
        exists n now,
          py_int v = Ret n /\ py_int get_current_datemonth_gmt_plus5 = Ret now
          /\ 200000 <= n /\ n <= now)
  /\ (forall s e, start_yearmonth ns' = Some s -> end_yearmonth ns' = Some e ->
        exists a b, py_int s = Ret a /\ py_int e = Ret b /\ a <= b).
Proof.
  intros E.
  assert (w' = w) as ->.
  { pose proof (gate_check_datetime_input ns w) as G. rewrite E in G.
    exact (gate_result_Ret _ _ _ G). }
  split; [reflexivity|].
  unfold check_datetime_input in E.
  apply bind_Ret_inv in E as (ns3 & w1 & EA & E). cbv zeta in E.
  apply bind_Ret_inv in E as ([] & w2 & Ers & E).
  apply bind_Ret_inv in E as ([] & w3 & Ere & E).
  apply bind_Ret_inv in E as ([] & w4 & Elt & E).
  unfold ret in E. inversion E. subst w4. clear E.
  set (ns4 := set_yearmonths ns3 (replace_falsey_yearmonth_with_none ns3)) in *.
  (* the shape of the namespace that enters the final checks *)
  assert (ns3 = set_yearmonths ns (start_yearmonth ns3, end_yearmonth ns3)
          /\ (ym_truthy (end_yearmonth ns3) = true ->
              ym_truthy (start_yearmonth ns3) = true)) as [Hns3 Hend].
  { destruct (ym_truthy (start_yearmonth ns) || ym_truthy (end_yearmonth ns)) eqn:Hany.
    - apply bind_Ret_inv in EA as (p1 & u1 & E1 & EA). cbv zeta in EA.
      apply bind_Ret_inv in EA as (p2 & u2 & E2 & EA). cbv zeta in EA.
      apply bind_Ret_inv in EA as (p3 & u3 & E3 & EA). cbv zeta in EA.
      apply bind_Ret_inv in EA as ([] & u4 & E4 & EA).
      apply bind_Ret_inv in EA as ([] & u5 & E5 & EA).
      unfold ret in EA. inversion EA. subst u5.
      split; [reflexivity|].
      rewrite start_set_yearmonths, end_set_yearmonths.
      apply check_for_now_in_yearmonth_Ret in E2 as [Ht Hp2].
      rewrite start_set_yearmonths in Ht, Hp2.
      apply check_cli_start_yearmonth_Ret in E3 as [->| ->].
      + simpl. discriminate.
      + rewrite start_set_yearmonths, end_set_yearmonths.
        destruct Hp2 as [Hp2|Hp2]; [rewrite Hp2; discriminate|].
        intros _. rewrite Hp2. exact Ht.
    - unfold ret in EA. inversion EA. subst ns3.
      apply orb_false_iff in Hany as [Hs He].
      split; [symmetry; apply set_yearmonths_same; reflexivity|].
      rewrite He. discriminate. }
  (* the final namespace *)
  assert (start_yearmonth ns4
          = if ym_truthy (start_yearmonth ns3) then start_yearmonth ns3 else None) as Hs4.
  { unfold ns4, replace_falsey_yearmonth_with_none. cbv zeta.
    rewrite start_set_yearmonths. cbv beta iota delta [fst].
    destruct (start_yearmonth ns3) as [s|]; [|reflexivity].
    simpl. destruct (String.eqb s ""); reflexivity. }
  assert (end_yearmonth ns4
          = if ym_truthy (end_yearmonth ns3) then end_yearmonth ns3 else None) as He4.
  { unfold ns4, replace_falsey_yearmonth_with_none. cbv zeta.
    rewrite end_set_yearmonths. cbv beta iota delta [snd].
    destruct (end_yearmonth ns3) as [s|]; [|reflexivity].
    simpl. destruct (String.eqb s ""); reflexivity. }
  assert (forall v, start_yearmonth ns4 = Some v -> ym_truthy (start_yearmonth ns4) = true)
    as Hst.
  { intros v Hv. rewrite Hs4 in *.
    destruct (ym_truthy (start_yearmonth ns3)) eqn:Ht; [|discriminate]. exact Ht. }
  assert (forall v, end_yearmonth ns4 = Some v -> ym_truthy (end_yearmonth ns4) = true)
    as Het.
  { intros v Hv. rewrite He4 in *.
    destruct (ym_truthy (end_yearmonth ns3)) eqn:Ht; [|discriminate]. exact Ht. }
  split.
  { unfold ns4. rewrite start_set_yearmonths, end_set_yearmonths.
    destruct (replace_falsey_yearmonth_with_none ns3) as [a b].
    cbv beta iota delta [fst snd]. rewrite Hns3. reflexivity. }
  split.
  { intros Hv. specialize (Hst _ Hv). rewrite Hv in Hst. discriminate. }
  split.
  { intros Hv. specialize (Het _ Hv). rewrite Hv in Het. discriminate. }
  split.
  { intros e He. rewrite He4 in He. rewrite Hs4.
    destruct (ym_truthy (end_yearmonth ns3)) eqn:Ht; [|discriminate].
    rewrite (Hend eq_refl).
    destruct (start_yearmonth ns3) as [s|] eqn:Hs3; [exists s; reflexivity|].
    specialize (Hend eq_refl). discriminate. }
  split.
  { intros v [Hv|Hv].
    - apply (check_yearmonth_in_range_Ret _ _ _ _ _) in Ers; [|exact (Hst _ Hv)].
      rewrite Hv in Ers. exact Ers.
    - apply (check_yearmonth_in_range_Ret _ _ _ _ _) in Ere; [|exact (Het _ Hv)].
      rewrite Hv in Ere. exact Ere. }
  intros s e Hs He.
  apply check_start_lessthan_end_Ret in Elt; [|exact (Hst _ Hs)|exact (Het _ He)].
  rewrite Hs, He in Elt. exact Elt.
Qed.

End Accepted.

(** ** A start given as a year alone *)

Section YearOnly.
Context {Store : Type} {helpers : Helpers}.

Lemma plain_start_passes_keywords (ns : ArgsNamespace) (s : string) (w : world Store) :
  start_yearmonth ns = Some s ->
  s <> "" -> s <> "start" -> s <> "now" ->
  ym_eq (end_yearmonth ns) "now" = false ->
  check_for_start_in_yearmonth ns w = (Ret (Some s, end_yearmonth ns), w)
  /\ check_for_now_in_yearmonth ns w = (Ret (Some s, end_yearmonth ns), w).
Proof.
  intros Hs H1 H2 H3 He.
  apply String.eqb_neq in H2, H3. pose proof (nonempty_truthy s H1) as Ht.
  split.
  - unfold check_for_start_in_yearmonth, try_except_ValueError. cbv zeta.
    rewrite Hs, Ht. unfold ym_eq. rewrite H2. reflexivity.
  - unfold check_for_now_in_yearmonth. cbv zeta. rewrite Hs, Ht, He.
    unfold ym_eq. rewrite H3, andb_false_r. reflexivity.
Qed.

(** X7. A start that names a year alone (its month part is empty) cannot
    be combined with an end: [check_datetime_input] rejects the
    configuration, with the text for a single year, or with the text for
    a missing start when the year part is empty too. *)
Theorem year_only_start_with_end_is_rejected
  (ns : ArgsNamespace) (s e : string) (w : world Store) :
  start_yearmonth ns = Some s ->
  s <> "" -> s <> "start" -> s <> "now" ->
  get_month_from_datemonth (Some s) = "" ->
  end_yearmonth ns = Some e ->
  e <> "" -> e <> "now" ->
  check_datetime_input ns w
  = rejected_with
      (if str_truthy (get_year_from_datemonth (Some s))
       then err_text_no_end_yearmonth (get_year_from_datemonth (Some s)) (Some e)
       else err_text_no_start_yearmonth (Some e)) w.
Proof.
  intros Hs H1 H2 H3 Hm He H4 H5.
  assert (ym_eq (end_yearmonth ns) "now" = false) as Hen.
  { rewrite He. simpl. apply String.eqb_neq. exact H5. }
  destruct (plain_start_passes_keywords ns s w Hs H1 H2 H3 Hen) as [E1 E2].
  rewrite He in E1, E2.
  unfold check_datetime_input. rewrite Hs, (nonempty_truthy s H1). simpl orb. cbv iota.
  apply bind_SystemExit.
  rewrite (bind_Ret _ _ _ _ _ E1). cbv beta zeta.
  rewrite (set_yearmonths_same ns _ _ Hs He).
  rewrite (bind_Ret _ _ _ _ _ E2). cbv beta zeta.
  rewrite (set_yearmonths_same ns _ _ Hs He).
  apply bind_SystemExit.
  unfold check_cli_start_yearmonth, try_except_ValueError. cbv zeta.
  rewrite Hs, He, Hm, (nonempty_truthy e H4).
  change (negb (str_truthy "")) with true. cbv iota.
  destruct (str_truthy (get_year_from_datemonth (Some s))); reflexivity.
Qed.

(** X8. A start that names a year alone, without an end, is accepted as
    month 00 of that year with no end, provided the year followed by 00
    reads as an integer between 200000 and the current year-month and its
    year and month parts are not those of a missing value. *)
Theorem year_only_start_becomes_month_zero
  (ns : ArgsNamespace) (s : string) (n now : Z) (w : world Store) :
  let expanded := get_year_from_datemonth (Some s) ++ "00" in
  start_yearmonth ns = Some s ->
  s <> "" -> s <> "start" -> s <> "now" ->
  get_month_from_datemonth (Some s) = "" ->
  ym_truthy (end_yearmonth ns) = false ->
  get_year_from_datemonth (Some expanded) ++ "_" ++ get_month_from_datemonth (Some expanded)
  <> get_year_from_datemonth None ++ "_" ++ get_month_from_datemonth None ->
  py_int expanded = Ret n ->
  py_int get_current_datemonth_gmt_plus5 = Ret now ->
  200000 <= n -> n <= now ->
  check_datetime_input ns w = (Ret (set_yearmonths ns (Some expanded, None)), w).
Proof.
  intros expanded Hs H1 H2 H3 Hm He Hdiff Hn Hnow Hlo Hhi.
  assert (ym_eq (end_yearmonth ns) "now" = false) as Hen.
  { destruct (end_yearmonth ns) as [e|]; [|reflexivity]. simpl in *.
    apply negb_false_iff, String.eqb_eq in He. subst e. reflexivity. }
  destruct (plain_start_passes_keywords ns s w Hs H1 H2 H3 Hen) as [E1 E2].
  assert (expanded <> "") as Hexp.
  { unfold expanded. destruct (get_year_from_datemonth (Some s)); discriminate. }
  assert (check_cli_start_yearmonth ns w = (Ret (Some expanded, None), w)) as E3.
  { unfold check_cli_start_yearmonth, try_except_ValueError. cbv zeta.
    rewrite Hs, Hm, He. reflexivity. }
  assert (check_cli_end_yearmonth (set_yearmonths ns (Some expanded, None)) w
          = (Ret tt, w)) as E4 by reflexivity.
  assert (check_for_same_start_yearmonth (set_yearmonths ns (Some expanded, None)) w
          = (Ret tt, w)) as E5.
  { unfold check_for_same_start_yearmonth, try_except_ValueError. cbv zeta.
    rewrite start_set_yearmonths, end_set_yearmonths. cbv beta iota delta [fst snd].
    apply String.eqb_neq in Hdiff. rewrite Hdiff. reflexivity. }
  assert (forall flag gap, check_yearmonth_in_range flag gap (Some expanded) w = (Ret tt, w))
    as E6.
  { intros flag gap. unfold check_yearmonth_in_range, try_except_ValueError.
    rewrite (nonempty_truthy _ Hexp). unfold bind, lift, ym_format.
    rewrite Hn. destruct (n <? 200000) eqn:A; [lia|].
    rewrite Hnow. destruct (now <? n) eqn:B; [lia|]. reflexivity. }
  unfold check_datetime_input. rewrite Hs, (nonempty_truthy s H1). simpl orb. cbv iota.
  unfold bind at 1.
  rewrite (bind_Ret _ _ _ _ _ E1). cbv beta zeta.
  rewrite (set_yearmonths_same ns _ _ Hs eq_refl).
  rewrite (bind_Ret _ _ _ _ _ E2). cbv beta zeta.
  rewrite (set_yearmonths_same ns _ _ Hs eq_refl).
  rewrite (bind_Ret _ _ _ _ _ E3). cbv beta zeta.
  rewrite (bind_Ret _ _ _ _ _ E4), (bind_Ret _ _ _ _ _ E5).
  unfold ret at 1. cbv beta iota zeta.
  assert (replace_falsey_yearmonth_with_none (set_yearmonths ns (Some expanded, None))
          = (Some expanded, None)) as Erf.
  { unfold replace_falsey_yearmonth_with_none. cbv zeta.
    rewrite start_set_yearmonths, end_set_yearmonths. cbv beta iota delta [fst snd].
    rewrite (nonempty_truthy _ Hexp). unfold ym_eq.
    apply String.eqb_neq in Hexp. rewrite Hexp. reflexivity. }
  rewrite Erf, set_yearmonths_twice.
  unfold check_start_yearmonth_in_range, check_end_yearmonth_in_range.
  rewrite start_set_yearmonths, end_set_yearmonths. cbv beta iota delta [fst snd].
  rewrite (bind_Ret _ _ _ _ _ (E6 _ _)).
  assert (check_start_lessthan_end (set_yearmonths ns (Some expanded, None)) w
          = (Ret tt, w)) as E7.
  { unfold check_start_lessthan_end, try_except_ValueError. cbv zeta.
    rewrite start_set_yearmonths, end_set_yearmonths. cbv beta iota delta [fst snd].
    change (ym_truthy None) with false. rewrite andb_false_r. reflexivity. }
  unfold bind at 1. change (check_yearmonth_in_range "-e" "     " None w) with (Ret tt, w).
  cbv beta iota. rewrite (bind_Ret _ _ _ _ _ E7). reflexivity.
Qed.

End YearOnly.

(** ** The year-month format *)

Section Format.
Context {Store : Type} {helpers : Helpers}.

Lemma digit_is_plain (c : ascii) :
  is_digit c = true ->
  is_date_punct c = false /\ is_space c = false /\ Ascii.eqb c newline = false
  /\ Ascii.eqb c "-"%char = false /\ Ascii.eqb c "+"%char = false.
Proof.
  destruct c as [[] [] [] [] [] [] [] []]; intros H;
    try (cbv in H; discriminate H); cbv; repeat split.
Qed.

Lemma lower_char_punct (c : ascii) : is_date_punct (lower_char c) = is_date_punct c.
Proof. destruct c as [[] [] [] [] [] [] [] []]; cbv; reflexivity. Qed.

Lemma filter_no_punct (l : list ascii) :
  Forall (fun c => is_date_punct c = false) l ->
  filter (fun c => negb (is_date_punct c)) l = l.
Proof.
  induction 1 as [|c l Hc Hl IH]; [reflexivity|].
  rewrite filter_cons_True by (rewrite Hc; exact I). rewrite IH. reflexivity.
Qed.

Lemma replace_date_punct_plain (s : string) :
  Forall (fun c => is_date_punct c = false) (list_ascii_of_string s) ->
  replace_date_punct (Some s) = s.
Proof.
  intros H. unfold replace_date_punct. rewrite (filter_no_punct _ H).
  apply string_of_list_ascii_of_string.
Qed.

Lemma drop_spaces_plain (c : ascii) (l : list ascii) :
  is_space c = false -> drop_spaces (c :: l) = c :: l.
Proof. intros H. simpl. rewrite H. reflexivity. Qed.

Lemma digits_value_digit (acc : Z) (prev : bool) (c : ascii) (r : list ascii) :
  is_digit c = true ->
  digits_value acc prev (c :: r) = digits_value (10 * acc + digit_value c) true r.
Proof. intros H. cbn [digits_value]. rewrite H. reflexivity. Qed.

Lemma before_dollar_plain (l : list ascii) (c : ascii) :
  Ascii.eqb c newline = false -> before_dollar (l ++ [c])%list = (l ++ [c])%list.
Proof.
  intros H. unfold before_dollar. rewrite rev_app_distr. cbn [rev app].
  rewrite H. reflexivity.
Qed.

(** X9. A year-month typed as four digits, one of the separators
    [-_.: ] and two digits is accepted and comes back as the six digits;
    the six digits are accepted unchanged; and [int] reads them as
    100 * year + month, the number the range checks compare. *)
Theorem separated_yearmonth_is_six_digits
  (y1 y2 y3 y4 p m1 m2 : ascii) (w : world Store) :
  let typed := string_of_list_ascii [y1; y2; y3; y4; p; m1; m2] in
  let digits := string_of_list_ascii [y1; y2; y3; y4; m1; m2] in
  Forall (fun c => is_digit c = true) [y1; y2; y3; y4; m1; m2] ->
  is_date_punct p = true ->
  validate_yearmonth_format typed w = (Ret digits, w)
  /\ validate_yearmonth_format digits w = (Ret digits, w)
  /\ py_int digits = Ret (yearmonth_number y1 y2 y3 y4 m1 m2).
Proof.
  intros typed digits Hd Hp.
  apply Forall_cons in Hd as [D1 Hd]. apply Forall_cons in Hd as [D2 Hd].
  apply Forall_cons in Hd as [D3 Hd]. apply Forall_cons in Hd as [D4 Hd].
  apply Forall_cons in Hd as [D5 Hd]. apply Forall_cons in Hd as [D6 _].
  destruct (digit_is_plain y1 D1) as (P1 & S1 & _ & Mi & Pl).
  destruct (digit_is_plain y2 D2) as (P2 & _).
  destruct (digit_is_plain y3 D3) as (P3 & _).
  destruct (digit_is_plain y4 D4) as (P4 & _).
  destruct (digit_is_plain m1 D5) as (P5 & _).
  destruct (digit_is_plain m2 D6) as (P6 & S6 & N6 & _).
  assert (list_ascii_of_string typed = [y1; y2; y3; y4; p; m1; m2]) as Lt
    by apply list_ascii_of_string_of_list_ascii.
  assert (list_ascii_of_string digits = [y1; y2; y3; y4; m1; m2]) as Ld
    by apply list_ascii_of_string_of_list_ascii.
  assert (replace_date_punct (Some digits) = digits) as Edigits.
  { apply replace_date_punct_plain. rewrite Ld. repeat constructor; assumption. }
  assert (replace_date_punct (Some typed) = digits) as Etyped.
  { unfold replace_date_punct. rewrite Lt.
    rewrite filter_cons_True by (rewrite P1; exact I).
    rewrite filter_cons_True by (rewrite P2; exact I).
    rewrite filter_cons_True by (rewrite P3; exact I).
    rewrite filter_cons_True by (rewrite P4; exact I).
    rewrite filter_cons_False by (rewrite Hp; intros []).
    rewrite filter_cons_True by (rewrite P5; exact I).
    rewrite filter_cons_True by (rewrite P6; exact I).
    reflexivity. }
  split; [|split].
  - unfold validate_yearmonth_format, try_except_ValueError.
    assert (match_year_punct_month typed = true) as ->.
    { unfold match_year_punct_month. rewrite Lt.
      pose proof (before_dollar_plain [y1; y2; y3; y4; p; m1] m2 N6) as B.
      cbn [app] in B. rewrite B.
      rewrite D1, D2, D3, D4, Hp, D5, D6. reflexivity. }
    cbn [orb]. rewrite Etyped. reflexivity.
  - unfold validate_yearmonth_format, try_except_ValueError.
    assert (match_six_digits digits = true) as ->.
    { unfold match_six_digits. rewrite Ld.
      pose proof (before_dollar_plain [y1; y2; y3; y4; m1] m2 N6) as B.
      cbn [app] in B. rewrite B.
      rewrite D1, D2, D3, D4, D5, D6. reflexivity. }
    rewrite orb_true_r. cbn [orb]. rewrite Edigits. reflexivity.
  - unfold py_int. rewrite Ld. unfold strip.
    rewrite (drop_spaces_plain _ _ S1). cbn [rev app].
    rewrite (drop_spaces_plain _ _ S6). cbn [rev app].
    rewrite Mi, Pl.
    rewrite !digits_value_digit by assumption. cbn [digits_value].
    f_equal. unfold yearmonth_number. lia.
Qed.

Lemma keyword_has_no_punct (s k : string) :
  lower s = k ->
  Forall (fun c => is_date_punct c = false) (list_ascii_of_string k) ->
  Forall (fun c => is_date_punct c = false) (list_ascii_of_string s).
Proof.
  intros <- H. unfold lower in H. rewrite list_ascii_of_string_of_list_ascii in H.
  apply Forall_map in H. eapply Forall_impl; [exact H|].
  intros c Hc. cbv beta in Hc. rewrite lower_char_punct in Hc. exact Hc.
Qed.

(** X10. The keywords are accepted in any capitalisation and come back
    as typed, capitals kept; the later checks compare with the lowercase
    spelling only, so a capitalised [now] as start is not replaced by the
    current year-month. *)
Theorem keywords_are_accepted_in_any_case (s : string) (w : world Store) :
  lower s = "now" \/ lower s = "start" ->
  validate_yearmonth_format s w = (Ret s, w)
  /\ (lower s = "now" -> s <> "now" ->
      forall ns, start_yearmonth ns = Some s ->
                 ym_eq (end_yearmonth ns) "now" = false ->
                 check_for_now_in_yearmonth ns w = (Ret (Some s, end_yearmonth ns), w)).
Proof.
  intros Hk.
  assert (Forall (fun c => is_date_punct c = false) (list_ascii_of_string s)) as Hplain.
  { destruct Hk as [Hk|Hk]; apply (keyword_has_no_punct _ _ Hk); repeat constructor. }
  split.
  - unfold validate_yearmonth_format, try_except_ValueError.
    assert (String.eqb (lower s) "now" || String.eqb (lower s) "start" = true) as Hor.
    { destruct Hk as [-> | ->]; reflexivity. }
    rewrite <- !orb_assoc. rewrite (orb_assoc (String.eqb (lower s) "now")), Hor.
    cbn [orb]. rewrite !orb_true_r. cbv iota.
    rewrite (replace_date_punct_plain s Hplain). reflexivity.
  - intros Hlow Hne ns Hs He.
    assert (s <> "") as Hnonempty by (intros ->; discriminate Hlow).
    unfold check_for_now_in_yearmonth. cbv zeta.
    rewrite Hs, (nonempty_truthy s Hnonempty), He. unfold ym_eq.
    apply String.eqb_neq in Hne. rewrite Hne, andb_false_r. reflexivity.
Qed.

End Format.

(** ** More on [_arg_list_to_set] *)

(** X11. The order and the repetitions of the elements of a list-valued
    argument are lost: two lists with the same elements give the same
    result. *)
Theorem arg_list_to_set_forgets_order
  (args : gmap string pyval) (k : string) (l1 l2 : list string) :
  (forall x, x ∈ l1 <-> x ∈ l2) ->
  _arg_list_to_set (<[k := VList l1]> args) = _arg_list_to_set (<[k := VList l2]> args).
Proof.
  intros H. rewrite !arg_list_to_set_fmap, !fmap_insert. f_equal.
  unfold list_to_set_value, set_of_list. f_equal.
  apply set_eq. intros x. rewrite !elem_of_list_to_set. apply H.
Qed.

Lemma arg_list_to_set_forgets_order_witness :
  (forall x, x ∈ ["eurusd"; "usdjpy"; "eurusd"] <-> x ∈ ["usdjpy"; "eurusd"])
  /\ _arg_list_to_set (<["pairs" := VList ["eurusd"; "usdjpy"; "eurusd"]]> ∅)
     = _arg_list_to_set (<["pairs" := VList ["usdjpy"; "eurusd"]]> ∅).
Proof.
  assert (forall x : string, x ∈ ["eurusd"; "usdjpy"; "eurusd"] <-> x ∈ ["usdjpy"; "eurusd"])
    as H.
  { intros x. rewrite !elem_of_cons, !elem_of_nil. tauto. }
  split; [exact H|].
  exact (arg_list_to_set_forgets_order ∅ "pairs" _ _ H).
Defined.

(** ** The call log of [run] *)

Section RunLog.
Context {Store Res : Type} {helpers : Helpers} {collaborators : Collaborators Store Res}.







End RunLog.

(** ** [ArgParser]: arguments and the empty command line *)

Section ArgParserCalls.
Context {Store : Type} {helpers : Helpers}.

Lemma find_never {A} (l : list A) : find (fun _ => false) l = None.
Proof. induction l; [reflexivity|exact IHl]. Qed.

Lemma find_mem_self (keywords : list string) :
  mem "self" keywords = false ->
  find (fun k => mem k ["self"]) keywords = None.
Proof.
  induction keywords as [|k l IH]; [reflexivity|].
  unfold mem. cbn [existsb find]. intros H. apply orb_false_iff in H as [H1 H2].
  rewrite String.eqb_sym, H1. cbn [orb]. apply IH. exact H2.
Qed.

(** X17. [ArgParser] takes keyword arguments only and makes no use of
    them: with a positional argument the call raises [TypeError] before
    anything is read or printed; with keyword arguments alone it runs as
    [ArgParser()] does; and on a command line that holds the program
    name alone it prints the help text and exits with status 1, without
    parsing. *)
Theorem ArgParser_arguments (w : world Store) :
  (forall n keywords, exists msg, ArgParser (S n) keywords w = (Raise (TypeError msg), w))
  /\ (forall keywords, mem "self" keywords = false ->
        ArgParser 0 keywords w = ArgParser_init_body w)
  /\ (List.length (sys_argv w) = 1%nat ->
      ArgParser_init_body w
      = (SystemExit (ExitInt 1),
         World (sys_argv w) (config_args w) (store w) (events w ++ [PrintHelp]))).
Proof.
  split; [|split].
  - intros n keywords. eexists. reflexivity.
  - intros keywords H. unfold ArgParser, bind_arguments.
    cbn [ArgParser_init_signature positional var_positional var_keyword sig_name
         List.length Nat.add Nat.ltb Nat.leb negb andb take drop].
    rewrite find_never, (find_mem_self keywords H). reflexivity.
  - intros H. unfold ArgParser_init_body, get_argv. unfold bind at 1. cbv beta iota zeta.
    rewrite H. reflexivity.
Qed.

End ArgParserCalls.

(** ** Concrete instances of the further properties *)

Lemma no_range_is_accepted_witness :
  let w := world_of_argv ["histdatacom"; "-V"] in
  let ns := ArgsNamespace_init (helpers:=reference_helpers) in
  ym_truthy (start_yearmonth ns) = false
  /\ ym_truthy (end_yearmonth ns) = false
  /\ check_datetime_input (helpers:=reference_helpers) ns w
     = (Ret (set_yearmonths ns (None, None)), w).
Proof.
  intros w ns. split; [reflexivity|]. split; [reflexivity|].
  exact (no_range_is_accepted (helpers:=reference_helpers) ns w eq_refl eq_refl).
Defined.

Lemma now_as_start_ignores_end_witness :
  let w := world_of_argv ["histdatacom"] in
  let ns := namespace_of (helpers:=reference_helpers) (Some "now") (Some "202101") in
  start_yearmonth ns = Some "now"
  /\ check_datetime_input (helpers:=reference_helpers)
       (set_yearmonths ns (Some "now", None)) w
     = check_datetime_input (helpers:=reference_helpers) ns w.
Proof.
  intros w ns. split; [reflexivity|].
  exact (now_as_start_ignores_end (helpers:=reference_helpers) ns None w eq_refl).
Defined.

Lemma start_keyword_needs_an_end_witness :
  let w := world_of_argv ["histdatacom"] in
  let ns := namespace_of (helpers:=reference_helpers) (Some "start") (Some "") in
  start_yearmonth ns = Some "start"
  /\ ym_truthy (end_yearmonth ns) = false
  /\ check_datetime_input (helpers:=reference_helpers) ns w
     = rejected_with err_text_start_must_have_end w.
Proof.
  intros w ns. split; [reflexivity|]. split; [reflexivity|].
  exact (proj1 (start_keyword_needs_an_end (helpers:=reference_helpers) ns w eq_refl)
           eq_refl).
Defined.

Lemma start_keyword_is_200001_witness :
  let w := world_of_argv ["histdatacom"] in
  let ns := namespace_of (helpers:=reference_helpers) (Some "start") (Some "202101") in
  start_yearmonth ns = Some "start"
  /\ ym_truthy (end_yearmonth ns) = true
  /\ ym_eq (end_yearmonth ns) "start" = false
  /\ check_datetime_input (helpers:=reference_helpers) ns w
     = check_datetime_input (helpers:=reference_helpers)
         (set_yearmonths ns (Some "200001", end_yearmonth ns)) w.
Proof.
  intros w ns. split; [reflexivity|]. split; [reflexivity|]. split; [reflexivity|].
  exact (start_keyword_is_200001 (helpers:=reference_helpers) ns w
           eq_refl eq_refl eq_refl).
Defined.

Lemma now_as_end_is_current_month_witness :
  let w := world_of_argv ["histdatacom"] in
  let ns := namespace_of (helpers:=reference_helpers) (Some "202101") (Some "now") in
  ym_truthy (start_yearmonth ns) = true
  /\ ym_eq (start_yearmonth ns) "start" = false
  /\ ym_eq (start_yearmonth ns) "now" = false
  /\ end_yearmonth ns = Some "now"
  /\ get_current_datemonth_gmt_plus5 (Helpers:=reference_helpers) <> "now"
  /\ check_datetime_input (helpers:=reference_helpers) ns w
     = check_datetime_input (helpers:=reference_helpers)
         (set_yearmonths ns
            (start_yearmonth ns,
             Some (get_current_datemonth_gmt_plus5 (Helpers:=reference_helpers)))) w.
Proof.
  intros w ns.
  assert (get_current_datemonth_gmt_plus5 (Helpers:=reference_helpers) <> "now") as H
    by discriminate.
  split; [reflexivity|]. split; [reflexivity|]. split; [reflexivity|].
  split; [reflexivity|]. split; [exact H|].
  exact (now_as_end_is_current_month (helpers:=reference_helpers) ns w
           eq_refl eq_refl eq_refl eq_refl H).
Defined.

Lemma accepted_configuration_is_in_range_witness :
  let w := world_of_argv ["histdatacom"] in
  let ns := namespace_of (helpers:=reference_helpers) (Some "202101") (Some "202103") in
  check_datetime_input (helpers:=reference_helpers) ns w = (Ret ns, w)
  /\ (w = w
      /\ ns = set_yearmonths ns (start_yearmonth ns, end_yearmonth ns)
      /\ start_yearmonth ns <> Some "" /\ end_yearmonth ns <> Some ""
      /\ (forall e, end_yearmonth ns = Some e -> exists s, start_yearmonth ns = Some s)
      /\ (forall v, start_yearmonth ns = Some v \/ end_yearmonth ns = Some v ->
            exists n now,
              py_int v = Ret n
              /\ py_int (get_current_datemonth_gmt_plus5 (Helpers:=reference_helpers))
                 = Ret now
              /\ 200000 <= n /\ n <= now)
      /\ (forall s e, start_yearmonth ns = Some s -> end_yearmonth ns = Some e ->
            exists a b, py_int s = Ret a /\ py_int e = Ret b /\ a <= b)).
Proof.
  intros w ns.
  assert (check_datetime_input (helpers:=reference_helpers) ns w = (Ret ns, w)) as E
    by (vm_compute; reflexivity).
  split; [exact E|].
  exact (accepted_configuration_is_in_range (helpers:=reference_helpers) ns ns w w E).
Defined.

Lemma year_only_start_with_end_is_rejected_witness :
  let w := world_of_argv ["histdatacom"] in
  let ns := namespace_of (helpers:=reference_helpers) (Some "2022") (Some "202203") in
  start_yearmonth ns = Some "2022"
  /\ "2022" <> "" /\ "2022" <> "start" /\ "2022" <> "now"
  /\ get_month_from_datemonth (Helpers:=reference_helpers) (Some "2022") = ""
  /\ end_yearmonth ns = Some "202203"
  /\ "202203" <> "" /\ "202203" <> "now"
  /\ check_datetime_input (helpers:=reference_helpers) ns w
     = rejected_with (err_text_no_end_yearmonth "2022" (Some "202203")) w.
Proof.
  intros w ns.
  assert ("2022" <> "") as H1 by discriminate.
  assert ("2022" <> "start") as H2 by discriminate.
  assert ("2022" <> "now") as H3 by discriminate.
  assert ("202203" <> "") as H4 by discriminate.
  assert ("202203" <> "now") as H5 by discriminate.
  repeat (split; [first [reflexivity | assumption]|]).
  exact (year_only_start_with_end_is_rejected (helpers:=reference_helpers)
           ns "2022" "202203" w eq_refl H1 H2 H3 eq_refl eq_refl H4 H5).
Defined.

Lemma year_only_start_becomes_month_zero_witness :
  let w := world_of_argv ["histdatacom"] in
  let ns := namespace_of (helpers:=reference_helpers) (Some "2021") (Some "") in
  start_yearmonth ns = Some "2021"
  /\ "2021" <> "" /\ "2021" <> "start" /\ "2021" <> "now"
  /\ get_month_from_datemonth (Helpers:=reference_helpers) (Some "2021") = ""
  /\ ym_truthy (end_yearmonth ns) = false
  /\ "2021_00" <> "_"
  /\ py_int "202100" = Ret 202100
  /\ py_int (get_current_datemonth_gmt_plus5 (Helpers:=reference_helpers)) = Ret 202206
  /\ 200000 <= 202100 /\ 202100 <= 202206
  /\ check_datetime_input (helpers:=reference_helpers) ns w
     = (Ret (set_yearmonths ns (Some "202100", None)), w).
Proof.
  intros w ns.
  assert ("2021" <> "") as H1 by discriminate.
  assert ("2021" <> "start") as H2 by discriminate.
  assert ("2021" <> "now") as H3 by discriminate.
  assert ("2021_00" <> "_") as H4 by discriminate.
  assert (200000 <= 202100) as H5 by lia.
  assert (202100 <= 202206) as H6 by lia.
  repeat (split; [first [reflexivity | assumption]|]).
  exact (year_only_start_becomes_month_zero (helpers:=reference_helpers)
           ns "2021" 202100 202206 w eq_refl H1 H2 H3 eq_refl eq_refl H4
           eq_refl eq_refl H5 H6).
Defined.

Lemma separated_yearmonth_is_six_digits_witness :
  let w := world_of_argv ["histdatacom"; "-s"; "2021-03"] in
  Forall (fun c => is_digit c = true)
    ["2"; "0"; "2"; "1"; "0"; "3"]%char
  /\ is_date_punct "-"%char = true
  /\ validate_yearmonth_format "2021-03" w
     = (Ret "202103", w)
  /\ validate_yearmonth_format "202103" w
     = (Ret "202103", w)
  /\ py_int "202103" = Ret 202103.
Proof.
  intros w.
  assert (Forall (fun c => is_digit c = true) ["2"; "0"; "2"; "1"; "0"; "3"]%char) as H
    by (repeat constructor).
  split; [exact H|]. split; [reflexivity|].
  exact (separated_yearmonth_is_six_digits
           "2"%char "0"%char "2"%char "1"%char "-"%char "0"%char "3"%char w H eq_refl).
Defined.

Lemma keywords_are_accepted_in_any_case_witness :
  let w := world_of_argv ["histdatacom"; "-s"; "NOW"] in
  let ns := namespace_of (helpers:=reference_helpers) (Some "NOW") (Some "") in
  (lower "NOW" = "now" \/ lower "NOW" = "start")
  /\ validate_yearmonth_format "NOW" w = (Ret "NOW", w)
  /\ check_for_now_in_yearmonth (helpers:=reference_helpers) ns w
     = (Ret (Some "NOW", end_yearmonth ns), w).
Proof.
  intros w ns.
  assert (lower "NOW" = "now" \/ lower "NOW" = "start") as H by (left; reflexivity).
  assert ("NOW" <> "now") as Hne by discriminate.
  split; [exact H|].
  destruct (keywords_are_accepted_in_any_case (helpers:=reference_helpers) "NOW" w H)
    as [H1 H2].
  split; [exact H1|].
  exact (H2 eq_refl Hne ns eq_refl eq_refl).
Defined.


